(** * Syndicate: the repository write path of [syndicate/utils.py]

    A shallow embedding of [syndicate/utils.py] (and of the silo client's
    [fetch], which the test suite exercises) together with the properties the
    specification states about them.

    Python code that talks to the outside world is embedded in a state and
    exception monad over a [World]: the process environment, the workflow log
    written by [print], the memo of [repo()], the requests sent over the
    network and the source-control host that answers them.  Code that only
    computes or raises lives in [Result].  The job-output helpers and the
    log-group decorator of the module carry none of the properties below and
    are not embedded. *)

From Stdlib Require Import String Ascii ZArith List Lia Bool.
From stdpp Require Import base option list gmap strings pretty.

Local Open Scope string_scope.
Local Open Scope list_scope.
Local Open Scope Z_scope.
Local Open Scope stdpp_scope.

(** ** Python values, exceptions and results *)

(** The scalars a YAML metadata header holds. *)
Inductive Value :=
| VNone
| VBool (b : bool)
| VInt (n : Z)
| VStr (s : string).

(** Python truthiness, as tested by [if x] and [not x]. *)
Definition truthy (v : Value) : bool :=
  match v with
  | VNone => false
  | VBool b => b
  | VInt n => negb (n =? 0)
  | VStr s => negb (String.eqb s "")
  end.

(** [x.get(k)] on a missing key gives [None]; so does a key bound to [None]. *)
Definition truthy_opt (o : option Value) : bool :=
  match o with
  | Some v => truthy v
  | None => false
  end.

Inductive exn :=
| AssertionError (msg : string)
| KeyError (key : string)
| TypeError (msg : string)
| UnboundLocalError (name : string)
| UnicodeDecodeError
| GitHubError (what : string)
| ConnectionError.

Inductive Result (A : Type) :=
| Ok (a : A)
| Raise (e : exn).
Arguments Ok {A} a.
Arguments Raise {A} e.

(** ** Insertion-ordered dictionaries

    A Python [dict] keeps its keys in insertion order; assigning to a key that
    is already there replaces the value where it stands. *)
Definition dict (V : Type) := list (string * V).

Fixpoint dict_get {V} (k : string) (d : dict V) : option V :=
  match d with
  | [] => None
  | (k', v) :: d' => if String.eqb k k' then Some v else dict_get k d'
  end.

Fixpoint dict_set {V} (k : string) (v : V) (d : dict V) : dict V :=
  match d with
  | [] => [(k, v)]
  | (k', v') :: d' =>
      if String.eqb k k' then (k', v) :: d' else (k', v') :: dict_set k v d'
  end.

Fixpoint dict_del {V} (k : string) (d : dict V) : dict V :=
  match d with
  | [] => []
  | (k', v') :: d' =>
      if String.eqb k k' then dict_del k d' else (k', v') :: dict_del k d'
  end.

Definition dict_keys {V} (d : dict V) : list string := map fst d.

(** [k in d]. *)
Definition dict_has {V} (k : string) (d : dict V) : bool :=
  match dict_get k d with
  | Some _ => true
  | None => false
  end.

(** [dict(d, **extra)] and [d.update(extra)]. *)
Definition dict_update {V} (d extra : dict V) : dict V :=
  fold_left (fun acc kv => dict_set (fst kv) (snd kv) acc) extra d.

Definition is_empty {A} (l : list A) : bool :=
  match l with
  | [] => true
  | _ => false
  end.

(** A Python [set] of strings, kept in the order of first insertion. *)
Definition set_add (x : string) (s : list string) : list string :=
  if existsb (String.eqb x) s then s else s ++ [x].

(** ** Strings *)

Definition lower_char (c : ascii) : ascii :=
  let n := nat_of_ascii c in
  if ((65 <=? n) && (n <=? 90))%nat then ascii_of_nat (n + 32) else c.

(** Lower-casing of the ASCII letters only: what the samples below use for
    [str.lower()], whose Unicode case table is not the repository's. *)
Fixpoint lower (s : string) : string :=
  match s with
  | EmptyString => EmptyString
  | String c s' => String (lower_char c) (lower s')
  end.

(** [s.startswith(p)]. *)
Definition startswith (s p : string) : bool := String.prefix p s.

(** [s.split(sep)] for a one-character separator. *)
Fixpoint split_on (sep : ascii) (s : string) : list string :=
  match s with
  | EmptyString => [EmptyString]
  | String c s' =>
      if Ascii.eqb c sep then EmptyString :: split_on sep s'
      else match split_on sep s' with
           | [] => [String c EmptyString]
           | w :: ws => String c w :: ws
           end
  end.

(** ** Posts and the frontmatter library *)

(** [frontmatter.Post]: [metadata], [content] and the [handler] it was built
    with. *)
Record Post := {
  metadata : dict Value;
  content : string;
  handler : option Value
}.

(** [github3]'s [Contents]: the decoded bytes of a file. *)
Record Contents := {
  decoded : string
}.

(** What callers hand to [fronted] and [syndicate_id_for]: nothing (or
    another falsy value), a [frontmatter.Post], or a [Contents] object. *)
Inductive PostLike :=
| NoPost
| APost (p : Post)
| AContents (c : Contents).

(** [Post.to_dict()]: a copy of the metadata with the body under
    ['content']. *)
Definition to_dict (p : Post) : dict Value :=
  dict_set "content" (VStr (content p)) (metadata p).

(** [str(v)]. *)
Definition py_str (v : Value) : string :=
  match v with
  | VNone => "None"
  | VBool true => "True"
  | VBool false => "False"
  | VInt n => pretty n
  | VStr s => s
  end.

(** The constructor call [Post] with keyword arguments [d], for
    [def __init__(self, content, handler=None, **metadata)]:
    a keyword ['self'] collides with the instance, the keyword ['content'] is
    required, ['handler'] is taken when given, and every other keyword lands
    in the metadata, in order. *)
Definition Post_of_kwargs (d : dict Value) : Result Post :=
  if dict_has "self" d
  then Raise (TypeError "__init__() got multiple values for argument 'self'")
  else
    match dict_get "content" d with
    | None => Raise (TypeError "__init__() missing 1 required positional argument: 'content'")
    | Some c =>
        Ok {| metadata := dict_del "handler" (dict_del "content" d);
              content := py_str c;
              handler := dict_get "handler" d |}
    end.

(** The text side of Python and of the frontmatter library: [str.lower] with
    its Unicode case table, [bytes.decode], and the parsing and printing of
    YAML are the runtime's and the library's business, not this
    repository's. *)
Class Frontmatter := {
  str_lower : string -> string;
  decode_utf8 : string -> option string;
  loads : string -> Result Post;
  dumps : Post -> string
}.

(** ** The source-control host *)

Record ChangedFile := {
  filename : string;
  status : string
}.

Record TreeEntry := {
  te_path : string;
  te_mode : string;
  te_type : string;
  te_sha : string
}.

Record Tree := {
  entries : list TreeEntry;
  base_tree : string
}.

Record Commit := {
  message : string;
  tree : string;
  parents : list string
}.

(** The requests this module sends. *)
Inductive Request :=
| GetRepository (token owner name : string)
| GetCommit (sha : string)
| GetContents (file ref : string)
| PostBlob (text encoding : string)
| PostTree (items : list TreeEntry) (base : string)
| PostCommit (msg tree_sha : string) (parent_shas : list string)
| PutRef (url : string) (headers : list (string * string)) (sha : string).

(** How the host answers a write: it accepts (and hands back the identifier
    of the new object, or the body of its 200 response), it rejects with an
    error body, or it cannot be reached. *)
Inductive Verdict :=
| Accept (payload : string)
| Reject (body : string)
| Down.

(** [requests]' response: the status code and the decoded body. *)
Record Response := {
  status_code : Z;
  json : string
}.

(** The host: what it serves for reads (commits and file contents are
    immutable, so these are plain tables), its object database, its
    references, and its answer to the n-th request it receives. *)
Record Host := {
  visible : string -> string -> string -> bool;
  commit_files : string -> option (list ChangedFile);
  contents_at : string -> string -> option Contents;
  blobs : list (string * string);
  trees : list (string * Tree);
  commits : list (string * Commit);
  refs : gmap string string;
  script : nat -> Verdict
}.

(** [github3]'s repository handle. *)
Record Repository := {
  r_owner : string;
  r_name : string;
  r_token : string
}.

(** ** The world a workflow step runs in *)

Record World := {
  environ : gmap string string;
  stdout : list string;
  repo_cache : option Repository;
  network : list Request;
  host : Host
}.

Definition with_stdout (out : list string) (w : World) : World :=
  {| environ := environ w; stdout := out; repo_cache := repo_cache w;
     network := network w; host := host w |}.

Definition with_repo_cache (c : option Repository) (w : World) : World :=
  {| environ := environ w; stdout := stdout w; repo_cache := c;
     network := network w; host := host w |}.

Definition with_network (n : list Request) (w : World) : World :=
  {| environ := environ w; stdout := stdout w; repo_cache := repo_cache w;
     network := n; host := host w |}.

Definition with_host (h : Host) (w : World) : World :=
  {| environ := environ w; stdout := stdout w; repo_cache := repo_cache w;
     network := network w; host := h |}.

Definition with_blobs (b : list (string * string)) (h : Host) : Host :=
  {| visible := visible h; commit_files := commit_files h;
     contents_at := contents_at h; blobs := b; trees := trees h;
     commits := commits h; refs := refs h; script := script h |}.

Definition with_trees (t : list (string * Tree)) (h : Host) : Host :=
  {| visible := visible h; commit_files := commit_files h;
     contents_at := contents_at h; blobs := blobs h; trees := t;
     commits := commits h; refs := refs h; script := script h |}.

Definition with_commits (c : list (string * Commit)) (h : Host) : Host :=
  {| visible := visible h; commit_files := commit_files h;
     contents_at := contents_at h; blobs := blobs h; trees := trees h;
     commits := c; refs := refs h; script := script h |}.

Definition with_refs (r : gmap string string) (h : Host) : Host :=
  {| visible := visible h; commit_files := commit_files h;
     contents_at := contents_at h; blobs := blobs h; trees := trees h;
     commits := commits h; refs := r; script := script h |}.

(** ** The monad *)

Definition M (A : Type) : Type := World -> Result A * World.

Definition ret {A} (a : A) : M A := fun w => (Ok a, w).

Definition raise {A} (e : exn) : M A := fun w => (Raise e, w).

Definition bind {A B} (m : M A) (k : A -> M B) : M B :=
  fun w =>
    match m w with
    | (Ok a, w') => k a w'
    | (Raise e, w') => (Raise e, w')
    end.

Definition run {A} (m : M A) (w : World) : Result A * World := m w.

Declare Scope py_scope.
Delimit Scope py_scope with py.
Notation "'let*' x ':=' c 'in' k" := (bind c (fun x => k))
  (at level 10, x name, c at level 100, k at level 200) : py_scope.
Notation "c '>>' k" := (bind c (fun _ => k))
  (at level 100, k at level 200, right associativity) : py_scope.
Local Open Scope py_scope.

Definition lift {A} (r : Result A) : M A := fun w => (r, w).

(** Code that only computes or raises lives in [Result]. *)
Definition rbind {A B} (r : Result A) (k : A -> Result B) : Result B :=
  match r with
  | Ok a => k a
  | Raise e => Raise e
  end.

Notation "'let+' x ':=' c 'in' k" := (rbind c (fun x => k))
  (at level 10, x name, c at level 100, k at level 200) : py_scope.

Definition rassert (cond : bool) (msg : string) : Result unit :=
  if cond then Ok tt else Raise (AssertionError msg).

Fixpoint rfor_each {A S} (xs : list A) (body : S -> A -> Result S) (acc : S)
  : Result S :=
  match xs with
  | [] => Ok acc
  | x :: xs' => let+ acc' := body acc x in rfor_each xs' body acc'
  end.

(** [assert cond, msg]. *)
Definition assert_ (cond : bool) (msg : string) : M unit :=
  if cond then ret tt else raise (AssertionError msg).

(** [for x in xs: acc = body(acc, x)]. *)
Fixpoint for_each {A S} (xs : list A) (body : S -> A -> M S) (acc : S) : M S :=
  match xs with
  | [] => ret acc
  | x :: xs' => let* acc' := body acc x in for_each xs' body acc'
  end.

(** [[f(x) for x in xs]]. *)
Fixpoint list_comp {A B} (f : A -> M B) (xs : list A) : M (list B) :=
  match xs with
  | [] => ret []
  | x :: xs' => let* y := f x in let* ys := list_comp f xs' in ret (y :: ys)
  end.

(** Reading a local variable of the running function: a name that is
    assigned anywhere in a function body is local to the whole body, and
    reading it before its first assignment raises [UnboundLocalError]. *)
Definition load_fast {A} (name : string) (slot : option A) : M A :=
  match slot with
  | Some v => ret v
  | None => raise (UnboundLocalError name)
  end.

(** ** Process environment and workflow log *)

(** [os.getenv(key)]. *)
Definition getenv (key : string) : M (option string) :=
  fun w => (Ok (environ w !! key), w).

(** [os.getenv(key, fallback)]. *)
Definition getenv_or (key fallback : string) : M string :=
  fun w => (Ok (default fallback (environ w !! key)), w).

(** Truthiness of what [os.getenv] returns. *)
Definition env_truthy (o : option string) : bool :=
  match o with
  | Some s => negb (String.eqb s "")
  | None => false
  end.

(** f-string interpolation of what [os.getenv] returns. *)
Definition env_str (o : option string) : string := default "None" o.

Definition print (line : string) : M unit :=
  fun w => (Ok tt, with_stdout (stdout w ++ [line]) w).

Definition action_log (msg : string) : M unit := print msg.

Definition action_debug (msg : string) : M unit := print ("::debug::" +:+ msg).

Definition action_warn (msg : string) : M unit := print ("::warning::" +:+ msg).

Definition action_error (msg : string) : M unit := print ("::error::" +:+ msg).

Definition action_setenv (key value : string) : M unit :=
  print ("::set-env name=" +:+ key +:+ "::" +:+ value).

Definition action_setoutput (key value : string) : M unit :=
  print ("::set-output name=" +:+ key +:+ "::" +:+ value).

(** ** Talking to the host *)

(** Every request is recorded; its position is the host's clock. *)
Definition send (r : Request) : M nat :=
  fun w => (Ok (length (network w)), with_network (network w ++ [r]) w).

Definition ask {A} (f : Host -> A) : M A := fun w => (Ok (f (host w)), w).

Definition update_host (f : Host -> Host) : M unit :=
  fun w => (Ok tt, with_host (f (host w)) w).

(** What [github3] does with an answer that is not a success: it raises. *)
Definition refused {A} (v : Verdict) : M A :=
  match v with
  | Reject body => raise (GitHubError body)
  | _ => raise ConnectionError
  end.

(** [github3.login(token=...).repository(owner, name)]. *)
Definition gh_repository (token owner name : string) : M Repository :=
  let* _ := send (GetRepository token owner name) in
  let* ok := ask (fun h => visible h token owner name) in
  if ok : bool
  then ret {| r_owner := owner; r_name := name; r_token := token |}
  else raise (GitHubError "Not Found").

(** [repository.commit(sha).files]. *)
Definition gh_commit_files (sha : string) : M (list ChangedFile) :=
  let* _ := send (GetCommit sha) in
  let* found := ask (fun h => commit_files h sha) in
  match found with
  | Some files => ret files
  | None => raise (GitHubError "Not Found")
  end.

(** [repository.file_contents(path, ref)]. *)
Definition gh_file_contents (path ref : string) : M Contents :=
  let* _ := send (GetContents path ref) in
  let* found := ask (fun h => contents_at h path ref) in
  match found with
  | Some c => ret c
  | None => raise (GitHubError "Not Found")
  end.

(** [repository.create_blob(content, encoding)]: the new blob's SHA. *)
Definition create_blob (text encoding : string) : M string :=
  let* n := send (PostBlob text encoding) in
  let* v := ask (fun h => script h n) in
  match v with
  | Accept sha =>
      update_host (fun h => with_blobs (blobs h ++ [(sha, text)]) h) >> ret sha
  | _ => refused v
  end.

(** [repository.create_tree(tree, base_tree=...)]: the new tree's [sha]. *)
Definition create_tree (items : list TreeEntry) (base : string) : M string :=
  let* n := send (PostTree items base) in
  let* v := ask (fun h => script h n) in
  match v with
  | Accept sha =>
      update_host (fun h =>
        with_trees (trees h ++ [(sha, {| entries := items; base_tree := base |})]) h)
      >> ret sha
  | _ => refused v
  end.

(** [repository.create_commit(message, tree, parents)]: the new commit's
    [sha]. *)
Definition create_commit (msg tree_sha : string) (parent_shas : list string)
  : M string :=
  let* n := send (PostCommit msg tree_sha parent_shas) in
  let* v := ask (fun h => script h n) in
  match v with
  | Accept sha =>
      update_host (fun h =>
        with_commits (commits h ++
          [(sha, {| message := msg; tree := tree_sha; parents := parent_shas |})]) h)
      >> ret sha
  | _ => refused v
  end.

(** [requests.put(url, headers=..., json={'sha': sha})]: a rejected update
    comes back as a response with an error status, not as an exception. *)
Definition requests_put (url : string) (headers : list (string * string))
    (sha : string) : M Response :=
  let* n := send (PutRef url headers sha) in
  let* v := ask (fun h => script h n) in
  match v with
  | Accept body =>
      update_host (fun h => with_refs (<[url := sha]> (refs h)) h)
      >> ret {| status_code := 200; json := body |}
  | Reject body => ret {| status_code := 422; json := body |}
  | Down => raise ConnectionError
  end.

(** ** [syndicate/utils.py] *)

Definition set_repo_cache (r : Repository) : M unit :=
  fun w => (Ok tt, with_repo_cache (Some r) w).

(** [repo()], memoised by [functools.lru_cache(maxsize=1)]: a call that
    raises caches nothing. *)
Definition repo : M Repository :=
  fun w =>
    match repo_cache w with
    | Some r => (Ok r, w)
    | None =>
        (let* token := getenv "GITHUB_TOKEN" in
         assert_ (env_truthy token) "missing GITHUB_TOKEN" >>
         let* repository := getenv "GITHUB_REPOSITORY" in
         assert_ (env_truthy repository) "missing GITHUB_REPOSITORY" >>
         let* r :=
           match split_on "/" (env_str repository) with
           | [owner; name] => gh_repository (env_str token) owner name
           | _ => raise (TypeError "repository() takes 2 positional arguments")
           end in
         set_repo_cache r >> ret r) w
    end.

Definition parent_sha : M string :=
  let* sha := getenv "GITHUB_SHA" in
  assert_ (env_truthy sha) "missing GITHUB_SHA" >>
  getenv_or "SYNDICATE_SHA" (env_str sha).

Definition get_trigger_payload : M (list ChangedFile) :=
  let* sha := getenv "GITHUB_SHA" in
  assert_ (env_truthy sha) "missing GITHUB_SHA" >>
  let* r := repo in
  let* sha' := getenv "GITHUB_SHA" in
  gh_commit_files (env_str sha').

Definition file_contents (name : string) : M Contents :=
  let* r := repo in
  let* ref := parent_sha in
  gh_file_contents name ref.

(** The default of [get_posts]'s [post_dir], read when the module is
    imported. *)
Definition default_post_dir (import_environ : gmap string string) : string :=
  default "posts" (import_environ !! "SYNDICATE_POST_DIR").

Definition get_posts (post_dir : string) : M (list Contents) :=
  let* files := get_trigger_payload in
  assert_ (negb (is_empty files)) "target commit was empty" >>
  let posts :=
    List.filter (fun file => startswith (filename file) post_dir) files in
  list_comp (fun post => file_contents (filename post))
    (List.filter (fun post => negb (String.eqb (status post) "deleted")) posts).

Definition fronted `{Frontmatter} (post : PostLike) : Result Post :=
  match post with
  | NoPost => Raise (AssertionError "missing post")
  | APost p => Ok p
  | AContents c =>
      match decode_utf8 (decoded c) with
      | Some raw_contents => loads raw_contents
      | None => Raise UnicodeDecodeError
      end
  end.

Definition syndicate_key_for `{Frontmatter} (silo : string) : string :=
  str_lower silo +:+ "_syndicate_id".

Definition post_truthy (post : PostLike) : bool :=
  match post with
  | NoPost => false
  | _ => true
  end.

Definition syndicate_id_for `{Frontmatter} (post : PostLike) (silo : string)
  : Result (option Value) :=
  let+ _ := rassert (post_truthy post) "missing post" in
  let+ _ := rassert (negb (String.eqb silo "")) "missing silo" in
  let+ p := fronted post in
  Ok (dict_get (syndicate_key_for silo) (metadata p)).

(** [d[key]]. *)
Definition getitem {V} (key : string) (d : dict V) : Result V :=
  match dict_get key d with
  | Some v => Ok v
  | None => Raise (KeyError key)
  end.

(** The inner loop of [mark_syndicated_posts]: the IDs of the silos the post
    is not yet marked with, keyed by syndicate key, and the growing set of
    silos included. *)
Definition new_syndicate_ids_for `{Frontmatter} (fronted_post : Post)
    (syndicate_ids_by_silo : dict Value) (silos_included : list string)
  : Result (dict Value * list string) :=
  rfor_each syndicate_ids_by_silo
    (fun acc item =>
       let+ existing := syndicate_id_for (APost fronted_post) (fst item) in
       if negb (truthy_opt existing)
       then Ok (dict_set (syndicate_key_for (fst item)) (snd item) (fst acc),
                set_add (fst item) (snd acc))
       else Ok acc)
    ([], silos_included).

(** [frontmatter.Post] built from the old post's [to_dict()] overlaid with
    the new IDs. *)
Definition merged_post (fronted_post : Post) (new_syndicate_ids : dict Value)
  : Result Post :=
  Post_of_kwargs (dict_update (to_dict fronted_post) new_syndicate_ids).

(** The outer loop of [mark_syndicated_posts]: the posts to commit and the
    silos they were marked for. *)
Definition updated_posts `{Frontmatter} (syndicate_ids_by_path : dict (dict Value))
    (fronted_posts_by_path : dict Post) : Result (dict Post * list string) :=
  rfor_each syndicate_ids_by_path
    (fun acc item =>
       let+ fronted_post := getitem (fst item) fronted_posts_by_path in
       let+ found := new_syndicate_ids_for fronted_post (snd item) (snd acc) in
       if is_empty (fst found)
       then Ok (fst acc, snd found)
       else
         let+ updated_post := merged_post fronted_post (fst found) in
         Ok (dict_set (fst item) updated_post (fst acc), snd found))
    ([], []).

(** [repr] of a string and of a set of strings, as an f-string prints
    them. *)
Definition repr_str (s : string) : string := "'" +:+ s +:+ "'".

Definition repr_set (s : list string) : string :=
  match s with
  | [] => "set()"
  | _ => "{" +:+ String.concat ", " (map repr_str s) +:+ "}"
  end.

Definition blob_entry (item : string * string) : TreeEntry :=
  {| te_path := fst item; te_mode := "100644"; te_type := "blob";
     te_sha := snd item |}.

Definition ref_url (repository ref : option string) : string :=
  "https://api.github.com/repos/" +:+ env_str repository +:+ "/git/"
  +:+ env_str ref.

Definition ref_headers (token : option string) : list (string * string) :=
  [("Authorization", "token " +:+ env_str token);
   ("Accept", "application/vnd.github.v3+json")].

(** The dict comprehension that posts one blob per updated post. *)
Definition post_blobs `{Frontmatter} (fronted_posts_by_path : dict Post)
  : M (dict string) :=
  for_each fronted_posts_by_path
    (fun acc item =>
       let* r := repo in
       let* blob_sha := create_blob (dumps (snd item)) "utf-8" in
       ret (dict_set (fst item) blob_sha acc))
    [].

(** What follows the reference update in [commit_updated_posts]. *)
Definition conclude (response : Response) (new_commit : string)
  : M (option string) :=
  if status_code response =? 200
  then
    action_setenv "SYNDICATE_SHA" new_commit >>
    action_log "Syndicate posts marked." >>
    ret (Some (json response))
  else
    action_error ("Failed to mark syndicated posts: " +:+ json response) >>
    ret None.

(** Lines 247 to 262 of [commit_updated_posts]: the reference update sent
    with [requests.put], and what follows it. *)
Definition update_reference (new_commit : string) : M (option string) :=
  let* repository := getenv "GITHUB_REPOSITORY" in
  let* ref := getenv "GITHUB_REF" in
  let* token := getenv "GITHUB_TOKEN" in
  let* response :=
    requests_put (ref_url repository ref) (ref_headers token) new_commit in
  conclude response new_commit.

(** Lines 225 to 262 of [commit_updated_posts]: the tree over the parent,
    the commit on the parent, and the reference update. *)
Definition push_commit (new_blobs_by_path : dict string) (parent : string)
    (silos : list string) : M (option string) :=
  let* r := repo in
  let* new_tree := create_tree (map blob_entry new_blobs_by_path) parent in
  let* r' := repo in
  let* new_commit :=
    create_commit ("(syndicate): adding IDs for " +:+ repr_set silos)
      new_tree [parent] in
  update_reference new_commit.

(** [commit_updated_posts].  The body assigns to the name [parent_sha], so
    the name is a local variable of the function from its first line on, and
    the right-hand side of [parent_sha = parent_sha()] reads that local
    before anything was stored in it. *)
Definition commit_updated_posts `{Frontmatter} (fronted_posts_by_path : dict Post)
    (silos : list string) : M (option string) :=
  if is_empty fronted_posts_by_path
  then action_log "All good: already marked." >> ret None
  else
    let local_parent_sha : option (M string) := None in
    let* token := getenv "GITHUB_TOKEN" in
    assert_ (env_truthy token) "missing GITHUB_TOKEN" >>
    let* repository := getenv "GITHUB_REPOSITORY" in
    assert_ (env_truthy repository) "missing GITHUB_REPOSITORY" >>
    let* ref := getenv "GITHUB_REF" in
    assert_ (env_truthy ref) "missing GITHUB_REF" >>
    let* new_blobs_by_path := post_blobs fronted_posts_by_path in
    let* callee := load_fast "parent_sha" local_parent_sha in
    let* parent := callee in
    push_commit new_blobs_by_path parent silos.

Definition mark_syndicated_posts `{Frontmatter}
    (syndicate_ids_by_path : dict (dict Value))
    (fronted_posts_by_path : dict Post) : M (option string) :=
  assert_ (negb (is_empty syndicate_ids_by_path)) "missing syndicate IDs" >>
  assert_ (negb (is_empty fronted_posts_by_path)) "missing fronted posts" >>
  let* updated := lift (updated_posts syndicate_ids_by_path fronted_posts_by_path) in
  commit_updated_posts (fst updated) (snd updated).

(** ** The Commit Protocol as the specification words it

    Section 4.2 of the specification: blobs, then one tree over the parent
    tree named by the Commit Cursor, then one commit on the cursor, then the
    reference update; the cursor advances on success.  This definition follows
    the specification, not the source, and serves only for comparison with
    [commit_updated_posts]. *)
Definition commit_protocol_by_spec `{Frontmatter}
    (fronted_posts_by_path : dict Post) (silos : list string)
  : M (option string) :=
  if is_empty fronted_posts_by_path
  then action_log "All good: already marked." >> ret None
  else
    let* token := getenv "GITHUB_TOKEN" in
    assert_ (env_truthy token) "missing GITHUB_TOKEN" >>
    let* repository := getenv "GITHUB_REPOSITORY" in
    assert_ (env_truthy repository) "missing GITHUB_REPOSITORY" >>
    let* ref := getenv "GITHUB_REF" in
    assert_ (env_truthy ref) "missing GITHUB_REF" >>
    let* new_blobs_by_path := post_blobs fronted_posts_by_path in
    let* cursor := parent_sha in
    let* r := repo in
    let* new_tree := create_tree (map blob_entry new_blobs_by_path) cursor in
    let* new_commit :=
      create_commit ("(syndicate): adding IDs for " +:+ repr_set silos)
        new_tree [cursor] in
    let* response :=
      requests_put (ref_url repository ref) (ref_headers token) new_commit in
    conclude response new_commit.

(** ** The Commit Cursor across workflow steps

    The process never writes its own environment: [action_setenv] prints a
    [::set-env] workflow command, and the runner sets the variable for the
    steps that follow. *)

(** Splits at the first ["::"]. *)
Fixpoint cut_at_colons (s : string) : option (string * string) :=
  match s with
  | EmptyString => None
  | String c s' =>
      match s' with
      | String c' rest =>
          if Ascii.eqb c ":" && Ascii.eqb c' ":" then Some (EmptyString, rest)
          else match cut_at_colons s' with
               | Some (k, v) => Some (String c k, v)
               | None => None
               end
      | EmptyString => None
      end
  end.

Fixpoint strip_prefix (p s : string) : option string :=
  match p, s with
  | EmptyString, _ => Some s
  | String a p', String b s' => if Ascii.eqb a b then strip_prefix p' s' else None
  | _, EmptyString => None
  end.

Definition parse_set_env (line : string) : option (string * string) :=
  match strip_prefix "::set-env name=" line with
  | Some rest => cut_at_colons rest
  | None => None
  end.

(** The environment the next step of the job starts with. *)
Definition next_step_environ (w : World) : gmap string string :=
  fold_left
    (fun env line =>
       match parse_set_env line with
       | Some (k, v) => <[k := v]> env
       | None => env
       end)
    (stdout w) (environ w).

(** The Commit Cursor an environment holds: what [parent_sha()] returns in
    it. *)
Definition commit_cursor (env : gmap string string) : option string :=
  match env !! "GITHUB_SHA" with
  | Some sha => if String.eqb sha "" then None
                else Some (default sha (env !! "SYNDICATE_SHA"))
  | None => None
  end.

(** ** The silo client's [fetch] *)

Record Article := {
  article_id : Z;
  article_title : string
}.

Inductive Fetched :=
| OnePost (a : Article)
| AllPosts (l : list Article)
| NoSuchPost.

(** Modelled from the spec: the page-by-page search of the silo client
    ([syndicate/silos/dev.py] is not among the sources; its tests are).
    Section 4.4: with an id, fetch pages through the account's listing until a
    post with that id is found, and stops at the first page that returns no
    results.  [listing] is the silo's answer for each page number; the result
    carries the page numbers requested, and [None] means the fuel ran out. *)
Fixpoint search_pages (fuel : nat) (listing : nat -> list Article)
    (page : nat) (id : Z) : option (option Article * list nat) :=
  match fuel with
  | O => None
  | S fuel' =>
      match listing page with
      | [] => Some (None, [page])
      | posts =>
          match find (fun a => article_id a =? id) posts with
          | Some a => Some (Some a, [page])
          | None =>
              match search_pages fuel' listing (S page) id with
              | Some (found, pages) => Some (found, page :: pages)
              | None => None
              end
          end
      end
  end.

(** Modelled from the spec: listing every post of the account, page by page,
    up to the first empty page (section 4.4, [fetch] without an id). *)
Fixpoint list_pages (fuel : nat) (listing : nat -> list Article) (page : nat)
  : option (list Article * list nat) :=
  match fuel with
  | O => None
  | S fuel' =>
      match listing page with
      | [] => Some ([], [page])
      | posts =>
          match list_pages fuel' listing (S page) with
          | Some (more, pages) => Some (posts ++ more, page :: pages)
          | None => None
          end
      end
  end.

(** Modelled from the spec: the silo client's [fetch(id=None)] of section
    4.4.  Without a credential it fails (the test suite pins the failure to
    an [AssertionError]); with an id it answers the post or "not found";
    without one it answers the whole listing.  Pages are numbered from 1. *)
Definition fetch (api_key : option string) (post_id : option Z)
    (listing : nat -> list Article) (fuel : nat)
  : option (Result Fetched * list nat) :=
  if negb (env_truthy api_key)
  then Some (Raise (AssertionError "missing API key"), [])
  else
    match post_id with
    | Some id =>
        match search_pages fuel listing 1 id with
        | Some (Some a, pages) => Some (Ok (OnePost a), pages)
        | Some (None, pages) => Some (Ok NoSuchPost, pages)
        | None => None
        end
    | None =>
        match list_pages fuel listing 1 with
        | Some (posts, pages) => Some (Ok (AllPosts posts), pages)
        | None => None
        end
    end.

(** ** A small repository to run the code on *)

Module Demo.

Definition nl : string := String (ascii_of_nat 10) EmptyString.

Definition header_line (kv : string * Value) : string :=
  fst kv +:+ ": " +:+ py_str (snd kv) +:+ nl.

(** A line-per-key rendering, and a parser for documents without a
    header. *)
Definition plain : Frontmatter :=
  {| str_lower := lower;
     decode_utf8 := fun bytes => Some bytes;
     loads := fun raw => Ok {| metadata := []; content := raw; handler := None |};
     dumps := fun p =>
       "---" +:+ nl +:+ String.concat "" (map header_line (metadata p))
       +:+ "---" +:+ nl +:+ content p |}.

Definition branch_url : string :=
  "https://api.github.com/repos/dabrady/blog/git/refs/heads/master".

Definition trigger : list ChangedFile :=
  [ {| filename := "posts/a.md"; status := "modified" |};
    {| filename := "posts/b.md"; status := "deleted" |};
    {| filename := "README.md"; status := "modified" |} ].

(** A host that accepts every write and names the n-th object [sha-n]. *)
Definition github : Host :=
  {| visible := fun _ _ _ => true;
     commit_files := fun sha =>
       if String.eqb sha "c0" then Some trigger else None;
     contents_at := fun path ref =>
       Some {| decoded := path +:+ "@" +:+ ref |};
     blobs := [];
     trees := [];
     commits := [];
     refs := {[ branch_url := "c0" ]};
     script := fun n => Accept ("sha-" +:+ pretty n) |}.

Definition job_environ : gmap string string :=
  list_to_map
    [ ("GITHUB_TOKEN", "t0k3n");
      ("GITHUB_REPOSITORY", "dabrady/blog");
      ("GITHUB_REF", "refs/heads/master");
      ("GITHUB_SHA", "c0") ].

Definition world : World :=
  {| environ := job_environ; stdout := []; repo_cache := None;
     network := []; host := github |}.

(** The same job in a later step, after an earlier step moved the
    cursor. *)
Definition later_world : World :=
  {| environ := <["SYNDICATE_SHA" := "c1"]> job_environ; stdout := [];
     repo_cache := None; network := []; host := github |}.

Definition blog : Repository :=
  {| r_owner := "dabrady"; r_name := "blog"; r_token := "t0k3n" |}.

(** A world after its first call of [repo()]. *)
Definition opened (w : World) : World :=
  with_repo_cache (Some blog)
    (with_network (network w ++ [GetRepository "t0k3n" "dabrady" "blog"]) w).

Definition post_a : Post :=
  {| metadata := [("title", VStr "Hello")]; content := "Hi."; handler := None |}.

(** A post whose header holds a placeholder for its dev.to ID. *)
Definition post_placeholder : Post :=
  {| metadata := [("title", VStr "Hello"); ("dev_syndicate_id", VNone);
                  ("tags", VStr "intro")];
     content := "Hi."; handler := None |}.

(** A post already marked for dev.to. *)
Definition post_marked : Post :=
  {| metadata := [("title", VStr "Hello"); ("dev_syndicate_id", VInt 7)];
     content := "Hi."; handler := None |}.

Definition batch : dict Post := [("posts/a.md", post_a)].

(** What the dev.to silo answered for a post. *)
Definition dev_ids : dict Value := [("DEV", VInt 42)].

(** [post_placeholder] once marked with [dev_ids]. *)
Definition placeholder_marked : Post :=
  {| metadata := [("title", VStr "Hello"); ("dev_syndicate_id", VInt 42);
                  ("tags", VStr "intro")];
     content := "Hi."; handler := None |}.

(** Two posts came back from the silo with an ID; the first one is marked
    already. *)
Definition ids_by_path : dict (dict Value) :=
  [("posts/a.md", dev_ids); ("posts/c.md", [("DEV", VInt 43)])].

Definition posts_by_path : dict Post :=
  [("posts/a.md", post_marked); ("posts/c.md", post_a)].

Definition post_c_marked : Post :=
  {| metadata := [("title", VStr "Hello"); ("dev_syndicate_id", VInt 43)];
     content := "Hi."; handler := None |}.

(** The silo of the test suite: one page holding post 14, then nothing. *)
Definition one_page (page : nat) : list Article :=
  if (page =? 1)%nat then [ {| article_id := 14; article_title := "x" |} ]
  else [].

End Demo.

(** ** What a piece of code may touch *)

(** Requests that do not create a tree or a commit and do not move a
    reference. *)
Definition blob_traffic (r : Request) : bool :=
  match r with
  | GetRepository _ _ _ | PostBlob _ _ => true
  | _ => false
  end.

(** [w'] differs from [w] at most by looking the repository up and adding
    blobs to the object database. *)
Record blob_writes_only (w w' : World) : Prop := {
  bw_environ : environ w' = environ w;
  bw_stdout : stdout w' = stdout w;
  bw_refs : refs (host w') = refs (host w);
  bw_trees : trees (host w') = trees (host w);
  bw_commits : commits (host w') = commits (host w);
  bw_blobs : exists new, blobs (host w') = blobs (host w) ++ new;
  bw_network :
    exists sent, network w' = network w ++ sent /\ forallb blob_traffic sent = true
}.

(** What the repository shows: where its references point.  An object that
    no reference leads to is not part of it (section 4.2 of the
    specification: such an object may exist, unreferenced, safe to
    discard). *)
Definition repository_state (h : Host) : gmap string string := refs h.

(** The objects the host had are all still there, under their names. *)
Definition keeps_objects (h h' : Host) : Prop :=
  (exists new, blobs h' = blobs h ++ new) /\
  (exists new, trees h' = trees h ++ new) /\
  (exists new, commits h' = commits h ++ new).

(** The run from [w] to [w'] produced exactly one new commit for the batch:
    one commit object was added, its parent is the Commit Cursor, its tree
    lies over the cursor's tree and holds, for every post of the batch, an
    entry at the post's path whose blob is the serialized post, and a
    reference was moved to the commit. *)
Definition committed `{Frontmatter} (batch : dict Post) (w w' : World) : Prop :=
  exists sha c t,
    commits (host w') = commits (host w) ++ [(sha, c)] /\
    parents c = option_list (commit_cursor (environ w)) /\
    In (tree c, t) (trees (host w')) /\
    Some (base_tree t) = commit_cursor (environ w) /\
    (forall path post, dict_get path batch = Some post ->
       exists entry,
         In entry (entries t) /\ te_path entry = path /\
         In (te_sha entry, dumps post) (blobs (host w'))) /\
    exists url, refs (host w') !! url = Some sha.

(** From [w] to [w'] exactly one commit was pushed over [parent]: one tree
    holding an entry for each of the blobs, over the parent's tree, one
    commit on the parent with that tree, no other object, and the branch
    reference moved to the commit. *)
Definition pushed (new_blobs : dict string) (parent : string) (w w' : World)
  : Prop :=
  exists sha tree_sha msg,
    trees (host w')
    = trees (host w)
      ++ [(tree_sha, {| entries := map blob_entry new_blobs;
                        base_tree := parent |})] /\
    commits (host w')
    = commits (host w)
      ++ [(sha, {| message := msg; tree := tree_sha; parents := [parent] |})] /\
    blobs (host w') = blobs (host w) /\
    refs (host w')
    = <[ref_url (environ w !! "GITHUB_REPOSITORY") (environ w !! "GITHUB_REF")
        := sha]> (refs (host w)).

(** The ID that the silos of [ids] give for the syndicate key [k]: when
    several silos share the key, the last one counts. *)
Fixpoint id_for_key `{Frontmatter} (k : string) (ids : dict Value)
  : option Value :=
  match ids with
  | [] => None
  | item :: rest =>
      match id_for_key k rest with
      | Some v => Some v
      | None =>
          if String.eqb (syndicate_key_for (fst item)) k
          then Some (snd item) else None
      end
  end.

(** The files of a trigger payload that [get_posts] is meant to keep: under
    the posts directory and not deleted. *)
Definition live_posts (post_dir : string) (files : list ChangedFile)
  : list ChangedFile :=
  List.filter
    (fun f => startswith (filename f) post_dir
              && negb (String.eqb (status f) "deleted"))
    files.

(** A header as the parser builds it: [Post.__init__] takes ['self'],
    ['content'] and ['handler'] as arguments of their own, so the metadata of
    a parsed post has none of these keys. *)
Definition header_ok (p : Post) : Prop :=
  dict_get "content" (metadata p) = None /\
  dict_get "handler" (metadata p) = None /\
  dict_get "self" (metadata p) = None.

(** Every value already in [old] is still there in [new]. *)
Definition keeps_values (old new : dict Value) : Prop :=
  forall k v, dict_get k old = Some v -> dict_get k new = Some v.

(** ** The rest of [syndicate/utils.py]: log groups and job output *)

(** [action_log_group(title)] applied to [func] and called: the call of
    [func] sits between the two [print]s with no [try] around it. *)
Definition action_log_group {A} (title : string) (func : M A) : M A :=
  print ("::group::" +:+ title) >>
  let* result := func in
  print "::endgroup::" >>
  ret result.

(** [json.loads] and [json.dumps] on the objects the job persists: a text
    that is not a JSON object is an error here. *)
Class Json (J : Type) := {
  json_loads : string -> Result (dict J);
  json_dumps : dict J -> string
}.

Definition job_getoutput {J} `{Json J} : M (dict J) :=
  let* raw := getenv_or "SYNDICATE_POSTS" "{}" in
  lift (json_loads raw).

Definition job_addoutput {J} `{Json J} (results : dict J) : M unit :=
  let* syndicated_posts := job_getoutput in
  action_setenv "SYNDICATE_POSTS"
    (json_dumps (dict_update syndicated_posts results)).

(** The world the following step of the job starts in: a new process, with
    the variables the finished step set through [::set-env]. *)
Definition next_step (w : World) : World :=
  {| environ := next_step_environ w; stdout := []; repo_cache := None;
     network := network w; host := host w |}.

(** Requests that read, look the repository up or post a blob. *)
Definition harmless_traffic (r : Request) : bool :=
  match r with
  | PostTree _ _ | PostCommit _ _ _ | PutRef _ _ _ => false
  | _ => true
  end.

Module Samples.

(** A toy rendering of flat objects of strings: [k=v;k=v;]. *)
Definition render (d : dict string) : string :=
  match d with
  | [] => "{}"
  | _ => String.concat "" (map (fun kv => fst kv +:+ "=" +:+ snd kv +:+ ";") d)
  end.

Definition parse_item (item : string) : list (string * string) :=
  match split_on "=" item with
  | [k; v] => [(k, v)]
  | _ => []
  end.

Definition parse (s : string) : Result (dict string) :=
  if String.eqb s "{}" then Ok []
  else Ok (flat_map parse_item (split_on ";" s)).

Definition flat_json : Json string :=
  {| json_loads := parse; json_dumps := render |}.

(** A step whose earlier steps persisted one result. *)
Definition resumed_world : World :=
  {| environ := <["SYNDICATE_POSTS" := "posts/a.md=7;"]> Demo.job_environ;
     stdout := []; repo_cache := None; network := []; host := Demo.github |}.

(** A world without the triggering commit. *)
Definition no_sha_world : World :=
  {| environ := <["SYNDICATE_SHA" := "c1"]> (delete "GITHUB_SHA" Demo.job_environ);
     stdout := []; repo_cache := None; network := []; host := Demo.github |}.

(** A world without credentials. *)
Definition anonymous_world : World :=
  {| environ := delete "GITHUB_TOKEN" Demo.job_environ;
     stdout := []; repo_cache := None; network := []; host := Demo.github |}.

(** A commit that changed one file next to the posts directory. *)
Definition archive_github : Host :=
  {| visible := fun _ _ _ => true;
     commit_files := fun sha =>
       if String.eqb sha "c0"
       then Some [ {| filename := "posts-archive/x.md"; status := "added" |} ]
       else None;
     contents_at := fun path ref => Some {| decoded := path +:+ "@" +:+ ref |};
     blobs := []; trees := []; commits := [];
     refs := {[ Demo.branch_url := "c0" ]};
     script := fun n => Accept ("sha-" +:+ pretty n) |}.

Definition archive_world : World :=
  {| environ := Demo.job_environ; stdout := []; repo_cache := None;
     network := []; host := archive_github |}.

(** A host on which another writer moved the branch: it rejects what it is
    sent. *)
Definition contended_github : Host :=
  {| visible := fun _ _ _ => true;
     commit_files := fun _ => None;
     contents_at := fun _ _ => None;
     blobs := []; trees := []; commits := [];
     refs := {[ Demo.branch_url := "c1" ]};
     script := fun _ => Reject "Update is not a fast forward" |}.

Definition contended_world : World :=
  {| environ := Demo.job_environ; stdout := []; repo_cache := None;
     network := []; host := contended_github |}.

(** A step that fails after it opened its log group. *)
Definition failing_step : M unit :=
  action_log "working" >> raise (KeyError "posts/a.md").

(** A silo whose second page holds post 13. *)
Definition two_pages (page : nat) : list Article :=
  if (page =? 1)%nat then [ {| article_id := 14; article_title := "x" |} ]
  else if (page =? 2)%nat
       then [ {| article_id := 12; article_title := "y" |};
              {| article_id := 13; article_title := "z" |} ]
       else [].

End Samples.

(** * Properties *)

Section Monad.

Lemma run_bind {A B} (m : M A) (k : A -> M B) (w : World) :
  run (bind m k) w =
  match run m w with
  | (Ok a, w') => run (k a) w'
  | (Raise e, w') => (Raise e, w')
  end.
Proof. reflexivity. Qed.

Lemma blob_writes_only_refl (w : World) : blob_writes_only w w.
Proof.
  split; try reflexivity.
  - exists []. by rewrite app_nil_r.
  - exists []. by rewrite app_nil_r.
Qed.

Lemma blob_writes_only_trans (w1 w2 w3 : World) :
  blob_writes_only w1 w2 -> blob_writes_only w2 w3 -> blob_writes_only w1 w3.
Proof.
  intros [e1 o1 r1 t1 c1 [b1 Hb1] [n1 [Hn1 F1]]]
         [e2 o2 r2 t2 c2 [b2 Hb2] [n2 [Hn2 F2]]].
  split; try congruence.
  - exists (b1 ++ b2). by rewrite Hb2, Hb1, app_assoc.
  - exists (n1 ++ n2). split.
    + by rewrite Hn2, Hn1, app_assoc.
    + by rewrite forallb_app, F1, F2.
Qed.

End Monad.

(** ** [repo()] and the read path *)

Section Reads.

(** [repo()] never touches the environment, the log or the host's data;
    it sends at most the repository lookup, and memoises what it
    returns. *)
Lemma repo_effect (w w1 : World) (res : Result Repository) :
  run repo w = (res, w1) ->
  environ w1 = environ w /\ stdout w1 = stdout w /\ host w1 = host w /\
  (network w1 = network w \/
   exists t o n, network w1 = network w ++ [GetRepository t o n]) /\
  (forall r, res = Ok r -> repo_cache w1 = Some r).
Proof.
  unfold run, repo. destruct (repo_cache w) as [r0|] eqn:Hc.
  - intros [= <- <-]. repeat split; auto. intros r [= <-]. done.
  - unfold bind, getenv, assert_, ret, raise.
    destruct (env_truthy (environ w !! "GITHUB_TOKEN")); cbn;
      [| intros [= <- <-]; repeat split; auto; discriminate ].
    destruct (env_truthy (environ w !! "GITHUB_REPOSITORY")); cbn;
      [| intros [= <- <-]; repeat split; auto; discriminate ].
    destruct (split_on "/" (env_str (environ w !! "GITHUB_REPOSITORY")))
      as [|owner [|name [|? ?]]]; cbn;
      try (intros [= <- <-]; repeat split; auto; discriminate).
    unfold gh_repository, bind, send, ask, ret, raise; cbn.
    destruct (visible (host w) _ owner name); cbn.
    + intros [= <- <-]; cbn. repeat split; eauto.
      intros r [= <-]. done.
    + intros [= <- <-]; cbn. repeat split; eauto. discriminate.
Qed.

Lemma repo_cached (w : World) (r : Repository) :
  repo_cache w = Some r -> run repo w = (Ok r, w).
Proof. unfold run, repo. by intros ->. Qed.

Lemma repo_blob_writes_only (w w1 : World) (res : Result Repository) :
  run repo w = (res, w1) -> blob_writes_only w w1.
Proof.
  intros Hrun. destruct (repo_effect _ _ _ Hrun) as (He & Ho & Hh & Hn & _).
  split; try (by rewrite ?Hh).
  - exists []. by rewrite Hh, app_nil_r.
  - destruct Hn as [Hn | (t & o & n & Hn)].
    + exists []. by rewrite app_nil_r.
    + by exists [GetRepository t o n].
Qed.

Lemma parent_sha_cursor (w : World) (cursor : string) :
  commit_cursor (environ w) = Some cursor ->
  run parent_sha w = (Ok cursor, w).
Proof.
  unfold commit_cursor, run, parent_sha, bind, getenv, getenv_or, assert_.
  destruct (environ w !! "GITHUB_SHA") as [sha|] eqn:Hsha; [| done].
  cbn. destruct (String.eqb sha ""); [done |]. cbn.
  by intros [= <-].
Qed.

Lemma file_contents_cached (w : World) (r : Repository)
    (name cursor : string) :
  repo_cache w = Some r ->
  commit_cursor (environ w) = Some cursor ->
  run (file_contents name) w =
  (match contents_at (host w) name cursor with
   | Some c => Ok c
   | None => Raise (GitHubError "Not Found")
   end,
   with_network (network w ++ [GetContents name cursor]) w).
Proof.
  intros Hc Hcur. unfold file_contents.
  rewrite run_bind, (repo_cached _ _ Hc).
  rewrite run_bind, (parent_sha_cursor _ _ Hcur).
  unfold run, gh_file_contents, bind, send, ask, ret, raise; cbn.
  by destruct (contents_at (host w) name cursor).
Qed.

End Reads.

Section ReadClaims.

Lemma cursor_trigger (env : gmap string string) (sha cursor : string) :
  env !! "GITHUB_SHA" = Some sha ->
  commit_cursor env = Some cursor ->
  env_truthy (Some sha) = true /\
  cursor = default sha (env !! "SYNDICATE_SHA").
Proof.
  unfold commit_cursor. intros ->. cbn.
  destruct (String.eqb sha ""); [done |]. by intros [= <-].
Qed.

Lemma get_trigger_payload_run (w w1 : World) (r : Repository) (sha : string) :
  run repo w = (Ok r, w1) ->
  environ w !! "GITHUB_SHA" = Some sha ->
  env_truthy (Some sha) = true ->
  run get_trigger_payload w =
  (match commit_files (host w) sha with
   | Some files => Ok files
   | None => Raise (GitHubError "Not Found")
   end,
   with_network (network w1 ++ [GetCommit sha]) w1).
Proof.
  intros Hrepo Hsha Ht.
  destruct (repo_effect _ _ _ Hrepo) as (He & _ & Hh & _ & _).
  unfold get_trigger_payload.
  rewrite run_bind. unfold getenv at 1, run at 1. rewrite Hsha.
  rewrite run_bind. unfold assert_. rewrite Ht. unfold ret at 1, run at 1.
  rewrite run_bind, Hrepo.
  rewrite run_bind. unfold getenv at 1, run at 1. rewrite He, Hsha.
  unfold run, gh_commit_files, bind, send, ask, ret, raise; cbn.
  rewrite Hh. by destruct (commit_files (host w) sha).
Qed.

(** C7.  The changed files are listed from the triggering commit
    ([GITHUB_SHA]) whatever the cursor is, and a file's contents are read at
    the Commit Cursor: [SYNDICATE_SHA] when the environment has it, the
    triggering commit otherwise.  Each call sends that one request and
    returns what the host holds there: the files the triggering commit
    changed, and the file as it is at the cursor. *)
Theorem listing_at_trigger_contents_at_cursor (w w1 : World)
    (r : Repository) (sha cursor name : string) :
  run repo w = (Ok r, w1) ->
  environ w !! "GITHUB_SHA" = Some sha ->
  commit_cursor (environ w) = Some cursor ->
  cursor = default sha (environ w !! "SYNDICATE_SHA") /\
  network (snd (run get_trigger_payload w)) = network w1 ++ [GetCommit sha] /\
  network (snd (run (file_contents name) w))
  = network w1 ++ [GetContents name cursor] /\
  fst (run get_trigger_payload w)
  = match commit_files (host w) sha with
    | Some files => Ok files
    | None => Raise (GitHubError "Not Found")
    end /\
  fst (run (file_contents name) w)
  = match contents_at (host w) name cursor with
    | Some c => Ok c
    | None => Raise (GitHubError "Not Found")
    end.
Proof.
  intros Hrepo Hsha Hcur.
  destruct (cursor_trigger _ _ _ Hsha Hcur) as [Ht Hdef].
  destruct (repo_effect _ _ _ Hrepo) as (He & _ & Hh & _ & Hc).
  assert (Hfile : run (file_contents name) w
                  = (match contents_at (host w) name cursor with
                     | Some c => Ok c
                     | None => Raise (GitHubError "Not Found")
                     end,
                     with_network (network w1 ++ [GetContents name cursor]) w1)).
  { unfold file_contents. rewrite run_bind, Hrepo, run_bind.
    rewrite (parent_sha_cursor w1 cursor) by (by rewrite He).
    unfold run, gh_file_contents, bind, send, ask, ret, raise; cbn.
    rewrite Hh. by destruct (contents_at (host w) name cursor). }
  rewrite Hfile, (get_trigger_payload_run _ _ _ _ Hrepo Hsha Ht).
  by repeat split.
Qed.

Lemma list_comp_file_contents (files : list ChangedFile) :
  forall (w : World) (r : Repository) (cursor : string) (cs : list Contents),
  repo_cache w = Some r ->
  commit_cursor (environ w) = Some cursor ->
  Forall2 (fun f c => contents_at (host w) (filename f) cursor = Some c)
    files cs ->
  run (list_comp (fun post => file_contents (filename post)) files) w =
  (Ok cs,
   with_network
     (network w ++ map (fun f => GetContents (filename f) cursor) files) w).
Proof.
  induction files as [|f files IH]; intros w r cursor cs Hc Hcur Hall.
  - inversion Hall; subst. cbn. unfold run, ret.
    rewrite app_nil_r. by destruct w.
  - inversion Hall as [|? c ? cs' Hf Hrest]; subst. cbn [list_comp].
    rewrite run_bind, (file_contents_cached _ r _ cursor) by done.
    rewrite Hf, run_bind.
    rewrite (IH _ r cursor cs') by done.
    cbn. unfold run, ret. by rewrite <- app_assoc.
Qed.

(** Whether or not every read succeeds, the reads go through the list in
    order and stop at the first failure. *)
Lemma list_comp_file_contents_prefix (files : list ChangedFile) :
  forall (w : World) (r : Repository) (cursor : string),
  repo_cache w = Some r ->
  commit_cursor (environ w) = Some cursor ->
  exists k,
    network (snd (run (list_comp (fun post => file_contents (filename post))
                         files) w))
    = network w
      ++ map (fun f => GetContents (filename f) cursor) (take k files).
Proof.
  induction files as [|f files IH]; intros w r cursor Hc Hcur.
  - exists 0%nat. cbn. by rewrite app_nil_r.
  - cbn [list_comp].
    rewrite run_bind, (file_contents_cached _ r _ cursor) by done.
    destruct (contents_at (host w) (filename f) cursor) as [c|].
    + destruct (IH (with_network
                      (network w ++ [GetContents (filename f) cursor]) w)
                  r cursor Hc Hcur) as [k Hk].
      exists (S k). rewrite run_bind.
      destruct (run (list_comp _ files) _) as [[cs|e] w2]; cbn in Hk |- *;
        by rewrite Hk, <- app_assoc.
    + by exists 1%nat.
Qed.

Lemma filter_filter {A} (p q : A -> bool) (l : list A) :
  List.filter q (List.filter p l) = List.filter (fun x => p x && q x) l.
Proof.
  induction l as [|x l IH]; [done |]. cbn.
  destruct (p x); cbn; [destruct (q x) |]; by rewrite ?IH.
Qed.

Lemma get_trigger_payload_leaves (w w1 : World) (files : list ChangedFile) :
  run get_trigger_payload w = (Ok files, w1) ->
  environ w1 = environ w /\ host w1 = host w /\
  exists r, repo_cache w1 = Some r.
Proof.
  unfold get_trigger_payload.
  rewrite run_bind. unfold getenv at 1, run at 1.
  rewrite run_bind. unfold assert_.
  destruct (env_truthy (environ w !! "GITHUB_SHA")); [| done].
  unfold ret at 1, run at 1. rewrite run_bind.
  destruct (run repo w) as [[r|e] w0] eqn:Hrepo; [| done].
  destruct (repo_effect _ _ _ Hrepo) as (He & _ & Hh & _ & Hc).
  rewrite run_bind. unfold getenv at 1, run at 1.
  unfold run, gh_commit_files, bind, send, ask, ret, raise; cbn.
  destruct (commit_files (host w0) _); [| done].
  intros [= _ <-]. cbn. eauto.
Qed.

(** C8.  The posts directory defaults to [posts].  Given the files of the
    triggering commit: an empty payload makes
    [get_posts] fail its assertion; otherwise it fetches, in order and at
    the Commit Cursor, exactly the files under the posts directory that are
    not deleted, and returns what it fetched; if a read fails it stops
    there, so no request ever names a deleted file or a file outside the
    posts directory. *)
Theorem get_posts_fetches_live_posts (w w1 : World)
    (files : list ChangedFile) (post_dir cursor : string) :
  run get_trigger_payload w = (Ok files, w1) ->
  commit_cursor (environ w) = Some cursor ->
  (forall env : gmap string string,
     env !! "SYNDICATE_POST_DIR" = None -> default_post_dir env = "posts") /\
  (files = [] ->
   run (get_posts post_dir) w
   = (Raise (AssertionError "target commit was empty"), w1)) /\
  (files <> [] ->
   (exists k,
      network (snd (run (get_posts post_dir) w))
      = network w1
        ++ map (fun f => GetContents (filename f) cursor)
             (take k (live_posts post_dir files))) /\
   forall cs,
     Forall2 (fun f c => contents_at (host w) (filename f) cursor = Some c)
       (live_posts post_dir files) cs ->
     fst (run (get_posts post_dir) w) = Ok cs /\
     network (snd (run (get_posts post_dir) w))
     = network w1
       ++ map (fun f => GetContents (filename f) cursor)
            (live_posts post_dir files)).
Proof.
  intros Hpay Hcur.
  destruct (get_trigger_payload_leaves _ _ _ Hpay) as (He & Hh & r & Hc).
  split; [by unfold default_post_dir; intros env -> |].
  unfold get_posts. rewrite run_bind, Hpay. split.
  - intros ->. reflexivity.
  - intros Hne. rewrite run_bind.
    replace (run (assert_ (negb (is_empty files)) "target commit was empty") w1)
      with (Ok tt, w1) by (by destruct files).
    rewrite filter_filter. fold (live_posts post_dir files). split.
    + apply (list_comp_file_contents_prefix _ w1 r cursor);
        [done | by rewrite He].
    + intros cs Hall.
      rewrite (list_comp_file_contents _ w1 r cursor cs);
        [done | done | by rewrite He | by rewrite Hh].
Qed.

End ReadClaims.

Lemma listing_at_trigger_contents_at_cursor_witness :
  run repo Demo.later_world = (Ok Demo.blog, Demo.opened Demo.later_world) /\
  environ Demo.later_world !! "GITHUB_SHA" = Some "c0" /\
  commit_cursor (environ Demo.later_world) = Some "c1" /\
  "c1" = default "c0" (environ Demo.later_world !! "SYNDICATE_SHA") /\
  network (snd (run get_trigger_payload Demo.later_world))
  = network (Demo.opened Demo.later_world) ++ [GetCommit "c0"] /\
  network (snd (run (file_contents "posts/a.md") Demo.later_world))
  = network (Demo.opened Demo.later_world) ++ [GetContents "posts/a.md" "c1"] /\
  fst (run get_trigger_payload Demo.later_world) = Ok Demo.trigger /\
  fst (run (file_contents "posts/a.md") Demo.later_world)
  = Ok {| decoded := "posts/a.md@c1" |}.
Proof.
  assert (H1 : run repo Demo.later_world
               = (Ok Demo.blog, Demo.opened Demo.later_world))
    by (vm_compute; reflexivity).
  assert (H2 : environ Demo.later_world !! "GITHUB_SHA" = Some "c0")
    by (vm_compute; reflexivity).
  assert (H3 : commit_cursor (environ Demo.later_world) = Some "c1")
    by (vm_compute; reflexivity).
  split; [exact H1 | split; [exact H2 | split; [exact H3 |]]].
  exact (listing_at_trigger_contents_at_cursor
           Demo.later_world (Demo.opened Demo.later_world) Demo.blog
           "c0" "c1" "posts/a.md" H1 H2 H3).
Defined.

Lemma get_posts_fetches_live_posts_witness :
  run get_trigger_payload Demo.later_world
  = (Ok Demo.trigger,
     with_network (network (Demo.opened Demo.later_world) ++ [GetCommit "c0"])
       (Demo.opened Demo.later_world)) /\
  commit_cursor (environ Demo.later_world) = Some "c1" /\
  Demo.trigger <> [] /\
  live_posts "posts" Demo.trigger
  = [ {| filename := "posts/a.md"; status := "modified" |} ] /\
  fst (run (get_posts "posts") Demo.later_world)
  = Ok [ {| decoded := "posts/a.md@c1" |} ] /\
  network (snd (run (get_posts "posts") Demo.later_world))
  = [ GetRepository "t0k3n" "dabrady" "blog"; GetCommit "c0";
      GetContents "posts/a.md" "c1" ].
Proof.
  assert (H1 : run get_trigger_payload Demo.later_world
               = (Ok Demo.trigger,
                  with_network
                    (network (Demo.opened Demo.later_world) ++ [GetCommit "c0"])
                    (Demo.opened Demo.later_world)))
    by (vm_compute; reflexivity).
  assert (H2 : commit_cursor (environ Demo.later_world) = Some "c1")
    by (vm_compute; reflexivity).
  assert (H3 : Demo.trigger <> []) by discriminate.
  split; [exact H1 | split; [exact H2 | split; [exact H3 |]]].
  split; [reflexivity |].
  apply (proj2 (proj2 (proj2 (get_posts_fetches_live_posts
                                Demo.later_world _ Demo.trigger "posts" "c1"
                                H1 H2))
                  H3)).
  repeat constructor.
Defined.

(** ** [fronted] *)

Section Fronted.
Context {fm : Frontmatter}.

(** C10.  [fronted] returns a [frontmatter.Post] as it is, so applying it
    to its own result changes nothing (and a failure of the first
    application is the failure of both); on a missing post it fails its
    assertion. *)
Theorem fronted_idempotent :
  (forall p : Post, fronted (APost p) = Ok p) /\
  (forall x : PostLike,
     (let+ q := fronted x in fronted (APost q)) = fronted x) /\
  fronted NoPost = Raise (AssertionError "missing post").
Proof.
  split; [done | split; [| done]].
  intros x. by destruct (fronted x).
Qed.

End Fronted.

(** ** The silo client *)

Section Silo.

Lemma search_pages_exhausted (listing : nat -> list Article) (id : Z) (n : nat) :
  forall (start fuel : nat),
  listing (start + n)%nat = [] ->
  (forall p, (start <= p < start + n)%nat ->
     listing p <> [] /\ forall a, In a (listing p) -> article_id a <> id) ->
  (n < fuel)%nat ->
  search_pages fuel listing start id = Some (None, seq start (S n)).
Proof.
  induction n as [|n IH]; intros start fuel Hend Hfull Hfuel.
  - destruct fuel as [|fuel]; [lia |]. cbn.
    replace (start + 0)%nat with start in Hend by lia. by rewrite Hend.
  - destruct fuel as [|fuel]; [lia |]. cbn [search_pages].
    destruct (Hfull start ltac:(lia)) as [Hne Hids].
    destruct (listing start) as [|a posts] eqn:Hpage; [done |].
    destruct (find _ (a :: posts)) as [b|] eqn:Hfind.
    + apply find_some in Hfind as [Hin Heq].
      apply Z.eqb_eq in Heq. by destruct (Hids b Hin).
    + rewrite (IH (S start) fuel).
      * reflexivity.
      * by replace (S start + n)%nat with (start + S n)%nat by lia.
      * intros p Hp. apply Hfull. lia.
      * lia.
Qed.

(** C9.  When the pages before the first empty page hold no post with the
    requested id, [fetch] asks for each page once, in order, stops at the
    first empty page, and answers "not found" instead of raising. *)
Theorem fetch_unknown_id_not_found (api_key : string) (id : Z)
    (listing : nat -> list Article) (n fuel : nat) :
  api_key <> "" ->
  listing (S n) = [] ->
  (forall p, (1 <= p <= n)%nat ->
     listing p <> [] /\ forall a, In a (listing p) -> article_id a <> id) ->
  (n < fuel)%nat ->
  fetch (Some api_key) (Some id) listing fuel
  = Some (Ok NoSuchPost, seq 1 (S n)).
Proof.
  intros Hkey Hend Hfull Hfuel. unfold fetch.
  replace (env_truthy (Some api_key)) with true.
  - cbn [negb]. rewrite (search_pages_exhausted listing id n 1 fuel); auto.
    intros p Hp. apply Hfull. lia.
  - cbn. by destruct (String.eqb_spec api_key "").
Qed.

End Silo.

Lemma fetch_unknown_id_not_found_witness :
  "fake_api_key" <> "" /\
  Demo.one_page 2 = [] /\
  fetch (Some "fake_api_key") (Some 13) Demo.one_page 2
  = Some (Ok NoSuchPost, [1; 2]%nat).
Proof.
  split; [discriminate | split; [reflexivity |]].
  apply (fetch_unknown_id_not_found "fake_api_key" 13 Demo.one_page 1 2).
  - discriminate.
  - reflexivity.
  - intros p Hp. assert (p = 1%nat) as -> by lia. split; [discriminate |].
    intros a [<- | []]. discriminate.
  - lia.
Defined.

(** ** The Commit Protocol *)

Section Commit.
Context {fm : Frontmatter}.

(** C6.  On an empty batch [commit_updated_posts] only logs that all is
    well and returns nothing: no request is sent, and the host, the
    environment and the memo of [repo()] are left as they were. *)
Theorem commit_nothing_is_a_no_op (silos : list string) (w : World) :
  run (commit_updated_posts [] silos) w
  = (Ok None, with_stdout (stdout w ++ ["All good: already marked."]) w) /\
  network (snd (run (commit_updated_posts [] silos) w)) = network w /\
  host (snd (run (commit_updated_posts [] silos) w)) = host w /\
  environ (snd (run (commit_updated_posts [] silos) w)) = environ w.
Proof. done. Qed.

Lemma create_blob_writes_only (text encoding : string) (w w1 : World)
    (res : Result string) :
  run (create_blob text encoding) w = (res, w1) -> blob_writes_only w w1.
Proof.
  unfold run, create_blob, bind, send, ask, update_host, refused, ret, raise.
  cbn. destruct (script (host w) (length (network w))) as [sha|body|];
    intros [= <- <-]; split; cbn; try reflexivity;
    try (by exists []; rewrite app_nil_r);
    try (by exists [PostBlob text encoding]).
  by exists [(sha, text)].
Qed.

Lemma post_blobs_writes_only (batch : dict Post) :
  forall (acc : dict string) (w w1 : World) (res : Result (dict string)),
  run (for_each batch
         (fun acc item =>
            let* r := repo in
            let* blob_sha := create_blob (dumps (snd item)) "utf-8" in
            ret (dict_set (fst item) blob_sha acc)) acc) w = (res, w1) ->
  blob_writes_only w w1.
Proof.
  induction batch as [|[path post] batch IH]; intros acc w w1 res.
  - intros [= <- <-]. apply blob_writes_only_refl.
  - cbn [for_each]. rewrite !run_bind.
    destruct (run repo w) as [[r|e] wa] eqn:Hrepo.
    + pose proof (repo_blob_writes_only _ _ _ Hrepo) as Ha.
      rewrite run_bind.
      destruct (run (create_blob _ _) wa) as [[sha|e] wb] eqn:Hblob.
      * pose proof (create_blob_writes_only _ _ _ _ _ Hblob) as Hb.
        unfold ret at 1, run at 1. intros Hrest.
        apply IH in Hrest.
        eauto using blob_writes_only_trans.
      * pose proof (create_blob_writes_only _ _ _ _ _ Hblob) as Hb.
        intros [= <- <-]. eauto using blob_writes_only_trans.
    + intros [= <- <-]. eauto using repo_blob_writes_only.
Qed.

(** A non-empty batch never gets past the read of the local
    [parent_sha]: the call raises, having at most looked the repository up
    and posted blobs. *)
Lemma commit_updated_posts_stops (batch : dict Post) (silos : list string)
    (w w1 : World) (res : Result (option string)) :
  batch <> [] ->
  run (commit_updated_posts batch silos) w = (res, w1) ->
  (exists e, res = Raise e) /\ blob_writes_only w w1.
Proof.
  intros Hne. unfold commit_updated_posts.
  destruct batch as [|item batch]; [done |]. cbn [is_empty].
  remember (post_blobs (item :: batch)) as pb eqn:Hpb.
  unfold run, bind, getenv, assert_, load_fast, ret, raise.
  destruct (env_truthy (environ w !! "GITHUB_TOKEN"));
    [| intros [= <- <-]; split; [by eexists | apply blob_writes_only_refl]].
  destruct (env_truthy (environ w !! "GITHUB_REPOSITORY"));
    [| intros [= <- <-]; split; [by eexists | apply blob_writes_only_refl]].
  destruct (env_truthy (environ w !! "GITHUB_REF"));
    [| intros [= <- <-]; split; [by eexists | apply blob_writes_only_refl]].
  destruct (pb w) as [[new_blobs|e] w2] eqn:Hblobs;
    intros [= <- <-]; (split; [by eexists |]);
    subst pb; by apply post_blobs_writes_only in Hblobs.
Qed.

Lemma cursor_after_blob_writes (w w1 : World) :
  blob_writes_only w w1 ->
  commit_cursor (next_step_environ w1) = commit_cursor (next_step_environ w).
Proof.
  intros [He Ho _ _ _ _ _]. unfold next_step_environ. by rewrite He, Ho.
Qed.

Lemma next_step_environ_app (w : World) (lines : list string) :
  next_step_environ (with_stdout (stdout w ++ lines) w)
  = fold_left
      (fun env line =>
         match parse_set_env line with
         | Some (k, v) => <[k := v]> env
         | None => env
         end)
      lines (next_step_environ w).
Proof. unfold next_step_environ. cbn. by rewrite fold_left_app. Qed.

(** The reference update, request by request. *)
Lemma update_reference_run (new_commit : string) (w : World) :
  run (update_reference new_commit) w
  = match script (host w) (length (network w)) with
    | Accept body =>
        (Ok (Some body),
         with_stdout
           (stdout w ++ ["::set-env name=SYNDICATE_SHA::" +:+ new_commit;
                         "Syndicate posts marked."])
           (with_host
              (with_refs
                 (<[ref_url (environ w !! "GITHUB_REPOSITORY")
                      (environ w !! "GITHUB_REF") := new_commit]>
                    (refs (host w))) (host w))
              (with_network
                 (network w
                  ++ [PutRef (ref_url (environ w !! "GITHUB_REPOSITORY")
                                (environ w !! "GITHUB_REF"))
                        (ref_headers (environ w !! "GITHUB_TOKEN")) new_commit])
                 w)))
    | Reject body =>
        (Ok None,
         with_stdout
           (stdout w ++ ["::error::Failed to mark syndicated posts: " +:+ body])
           (with_network
              (network w
               ++ [PutRef (ref_url (environ w !! "GITHUB_REPOSITORY")
                             (environ w !! "GITHUB_REF"))
                     (ref_headers (environ w !! "GITHUB_TOKEN")) new_commit])
              w))
    | Down =>
        (Raise ConnectionError,
         with_network
           (network w
            ++ [PutRef (ref_url (environ w !! "GITHUB_REPOSITORY")
                          (environ w !! "GITHUB_REF"))
                  (ref_headers (environ w !! "GITHUB_TOKEN")) new_commit])
           w)
    end.
Proof.
  unfold run, update_reference, bind, getenv, requests_put, send, ask,
    update_host, conclude, action_setenv, action_log, action_error, print,
    ret, raise.
  cbn. destruct (script (host w) (length (network w))) as [body|body|]; cbn.
  - by rewrite <- app_assoc.
  - reflexivity.
  - reflexivity.
Qed.

Lemma cursor_after_set_env (w : World) (new_commit c : string) :
  commit_cursor (next_step_environ w) = Some c ->
  commit_cursor (<["SYNDICATE_SHA" := new_commit]> (next_step_environ w))
  = Some new_commit.
Proof.
  unfold commit_cursor.
  rewrite lookup_insert_ne by done. rewrite lookup_insert_eq.
  destruct (next_step_environ w !! "GITHUB_SHA") as [sha|]; [| done].
  by destruct (String.eqb sha "").
Qed.

(** C1 (the code departs from it).  For every non-empty batch
    [commit_updated_posts] raises; everything it sent before is the
    repository lookup or a blob, so no tree, no commit and no reference
    update is ever requested.  When the environment is complete and every
    blob is accepted, the exception is the [UnboundLocalError] of reading
    the local [parent_sha], raised right after the blobs. *)
Theorem commit_updated_posts_stops_after_blobs (batch : dict Post)
    (silos : list string) (w : World) :
  batch <> [] ->
  (exists e, fst (run (commit_updated_posts batch silos) w) = Raise e) /\
  (exists sent,
     network (snd (run (commit_updated_posts batch silos) w))
     = network w ++ sent /\ forallb blob_traffic sent = true) /\
  (forall new_blobs w1,
     env_truthy (environ w !! "GITHUB_TOKEN") = true ->
     env_truthy (environ w !! "GITHUB_REPOSITORY") = true ->
     env_truthy (environ w !! "GITHUB_REF") = true ->
     run (post_blobs batch) w = (Ok new_blobs, w1) ->
     run (commit_updated_posts batch silos) w
     = (Raise (UnboundLocalError "parent_sha"), w1)).
Proof.
  intros Hne.
  destruct (run (commit_updated_posts batch silos) w) as [res w'] eqn:Hrun.
  destruct (commit_updated_posts_stops _ _ _ _ _ Hne Hrun) as [He Hw].
  split; [exact He | split; [apply Hw |]].
  intros new_blobs w1 Ht Hr Hf Hblobs. rewrite <- Hrun.
  unfold commit_updated_posts. destruct batch; [done |]. cbn [is_empty].
  rewrite run_bind. unfold getenv at 1, run at 1.
  rewrite run_bind, Ht. unfold assert_ at 1, ret at 1, run at 1.
  rewrite run_bind. unfold getenv at 1, run at 1.
  rewrite run_bind, Hr. unfold assert_ at 1, ret at 1, run at 1.
  rewrite run_bind. unfold getenv at 1, run at 1.
  rewrite run_bind, Hf. unfold assert_ at 1, ret at 1, run at 1.
  by rewrite run_bind, Hblobs.
Qed.

Lemma create_tree_effect (items : list TreeEntry) (base : string)
    (w w1 : World) (res : Result string) :
  run (create_tree items base) w = (res, w1) ->
  environ w1 = environ w /\ stdout w1 = stdout w /\
  ((exists sha,
      res = Ok sha /\
      host w1
      = with_trees
          (trees (host w) ++ [(sha, {| entries := items; base_tree := base |})])
          (host w)) \/
   ((exists e, res = Raise e) /\ host w1 = host w)).
Proof.
  unfold run, create_tree, bind, send, ask, update_host, refused, ret, raise.
  cbn. destruct (script (host w) (length (network w))) as [sha|body|];
    intros [= <- <-]; cbn; (split; [done | split; [done |]]).
  - left. by exists sha.
  - right. split; [by eexists | done].
  - right. split; [by eexists | done].
Qed.

Lemma create_commit_effect (msg tree_sha : string) (parent_shas : list string)
    (w w1 : World) (res : Result string) :
  run (create_commit msg tree_sha parent_shas) w = (res, w1) ->
  environ w1 = environ w /\ stdout w1 = stdout w /\
  ((exists sha,
      res = Ok sha /\
      host w1
      = with_commits
          (commits (host w)
           ++ [(sha, {| message := msg; tree := tree_sha;
                        parents := parent_shas |})])
          (host w)) \/
   ((exists e, res = Raise e) /\ host w1 = host w)).
Proof.
  unfold run, create_commit, bind, send, ask, update_host, refused, ret, raise.
  cbn. destruct (script (host w) (length (network w))) as [sha|body|];
    intros [= <- <-]; cbn; (split; [done | split; [done |]]).
  - left. by exists sha.
  - right. split; [by eexists | done].
  - right. split; [by eexists | done].
Qed.

Lemma update_reference_effect (new_commit : string) (w w1 : World)
    (res : Result (option string)) :
  run (update_reference new_commit) w = (res, w1) ->
  ((exists body, res = Ok (Some body)) /\
   host w1
   = with_refs
       (<[ref_url (environ w !! "GITHUB_REPOSITORY") (environ w !! "GITHUB_REF")
          := new_commit]> (refs (host w)))
       (host w)) \/
  ((forall body, res <> Ok (Some body)) /\ host w1 = host w /\
   next_step_environ w1 = next_step_environ w).
Proof.
  rewrite update_reference_run.
  destruct (script (host w) (length (network w))) as [body|body|];
    intros [= <- <-].
  - left. split; [by exists body | done].
  - right. split; [done | split; [done |]].
    change (with_network ?n w) with (with_host (host w) (with_network n w)).
    unfold next_step_environ. cbn. by rewrite fold_left_app.
  - right. done.
Qed.

Lemma keeps_objects_refl (h : Host) : keeps_objects h h.
Proof. repeat split; exists []; by rewrite app_nil_r. Qed.

(** The steps after the blobs are all or nothing. *)
Lemma push_commit_effect (new_blobs : dict string) (parent : string)
    (silos : list string) (w w' : World) (res : Result (option string)) :
  run (push_commit new_blobs parent silos) w = (res, w') ->
  ((exists body, res = Ok (Some body)) /\ pushed new_blobs parent w w') \/
  ((forall body, res <> Ok (Some body)) /\
   refs (host w') = refs (host w) /\
   keeps_objects (host w) (host w') /\
   next_step_environ w' = next_step_environ w).
Proof.
  unfold push_commit. rewrite run_bind.
  destruct (run repo w) as [[r|e] wa] eqn:Ha;
    destruct (repo_effect _ _ _ Ha) as (Hea & Hoa & Hha & _).
  2:{ intros [= <- <-]. right. rewrite Hha.
      split; [done | split; [done | split; [apply keeps_objects_refl |]]].
      unfold next_step_environ. by rewrite Hea, Hoa. }
  rewrite run_bind.
  destruct (run (create_tree _ _) wa) as [[tree_sha|e] wb] eqn:Hb;
    destruct (create_tree_effect _ _ _ _ _ Hb)
      as (Heb & Hob & [(sha1 & Hr1 & Hhb) | ([e1 Hr1] & Hhb)]);
    try discriminate Hr1.
  2:{ intros [= <- <-]. right. rewrite Hhb, Hha.
      split; [done | split; [done | split; [apply keeps_objects_refl |]]].
      unfold next_step_environ. by rewrite Heb, Hob, Hea, Hoa. }
  injection Hr1 as <-. rewrite run_bind.
  destruct (run repo wb) as [[r'|e] wc] eqn:Hc;
    destruct (repo_effect _ _ _ Hc) as (Hec & Hoc & Hhc & _).
  2:{ intros [= <- <-]. right. rewrite Hhc, Hhb, Hha. cbn.
      split; [done | split; [done | split]].
      - split; [exists []; by rewrite app_nil_r |].
        split; [by eexists | exists []; by rewrite app_nil_r].
      - unfold next_step_environ. by rewrite Hec, Hoc, Heb, Hob, Hea, Hoa. }
  rewrite run_bind.
  destruct (run (create_commit _ _ _) wc) as [[sha|e] wd] eqn:Hd;
    destruct (create_commit_effect _ _ _ _ _ _ Hd)
      as (Hed & Hod & [(sha2 & Hr2 & Hhd) | ([e2 Hr2] & Hhd)]);
    try discriminate Hr2.
  2:{ intros [= <- <-]. right. rewrite Hhd, Hhc, Hhb, Hha. cbn.
      split; [done | split; [done | split]].
      - split; [exists []; by rewrite app_nil_r |].
        split; [by eexists | exists []; by rewrite app_nil_r].
      - unfold next_step_environ.
        by rewrite Hed, Hod, Hec, Hoc, Heb, Hob, Hea, Hoa. }
  injection Hr2 as <-. intros He.
  destruct (update_reference_effect _ _ _ _ He)
    as [([body ->] & Hh) | (Hno & Hh & Hn)].
  - left. split; [by exists body |].
    exists sha, tree_sha, ("(syndicate): adding IDs for " +:+ repr_set silos).
    rewrite Hh, Hhd, Hhc, Hhb, Hha, Hed, Hec, Heb, Hea. by cbn.
  - right. rewrite Hh, Hhd, Hhc, Hhb, Hha. cbn.
    split; [done | split; [done | split]].
    + split; [exists []; by rewrite app_nil_r |]. split; by eexists.
    + rewrite Hn. unfold next_step_environ.
      by rewrite Hed, Hod, Hec, Hoc, Heb, Hob, Hea, Hoa.
Qed.

(** C2.  The Commit Protocol is all or nothing.  On a non-empty batch a run
    of [commit_updated_posts] either produced exactly one new commit over the
    cursor whose tree holds the blob of every post of the batch and moved a
    reference to it, or the repository is as it was: every reference points
    where it pointed, every object it had is still there, and the steps that
    follow find the Commit Cursor where it was.  The same holds of the steps
    after the blobs (lines 225 to 262) run on their own, from any parent and
    any blobs, whatever the host answers to each request: either a result is
    returned and exactly one tree and one commit on the parent were added and
    the branch reference points at that commit, or no result is returned, no
    reference moved, nothing was removed and the cursor is where it was.  No
    run leaves a reference on a partial commit. *)
Theorem commit_is_all_or_nothing (batch : dict Post) (silos : list string)
    (w : World) :
  batch <> [] ->
  (committed batch w (snd (run (commit_updated_posts batch silos) w)) \/
   (repository_state (host (snd (run (commit_updated_posts batch silos) w)))
    = repository_state (host w) /\
    keeps_objects (host w)
      (host (snd (run (commit_updated_posts batch silos) w))) /\
    commit_cursor
      (next_step_environ (snd (run (commit_updated_posts batch silos) w)))
    = commit_cursor (next_step_environ w))) /\
  (forall (new_blobs : dict string) (parent : string),
     ((exists body,
         fst (run (push_commit new_blobs parent silos) w) = Ok (Some body)) /\
      pushed new_blobs parent w
        (snd (run (push_commit new_blobs parent silos) w))) \/
     ((forall body,
         fst (run (push_commit new_blobs parent silos) w) <> Ok (Some body)) /\
      repository_state
        (host (snd (run (push_commit new_blobs parent silos) w)))
      = repository_state (host w) /\
      keeps_objects (host w)
        (host (snd (run (push_commit new_blobs parent silos) w))) /\
      commit_cursor
        (next_step_environ (snd (run (push_commit new_blobs parent silos) w)))
      = commit_cursor (next_step_environ w))).
Proof.
  intros Hne. split.
  - right.
    destruct (run (commit_updated_posts batch silos) w) as [res w'] eqn:Hrun.
    destruct (commit_updated_posts_stops _ _ _ _ _ Hne Hrun) as [_ Hw].
    cbn [snd].
    split; [apply Hw | split; [| by apply cursor_after_blob_writes]].
    destruct Hw as [_ _ _ Ht Hc Hb _]. split; [exact Hb | split].
    + exists []. by rewrite Ht, app_nil_r.
    + exists []. by rewrite Hc, app_nil_r.
  - intros new_blobs parent.
    destruct (run (push_commit new_blobs parent silos) w) as [res w'] eqn:Hrun.
    cbn [fst snd].
    destruct (push_commit_effect _ _ _ _ _ _ Hrun)
      as [Hall | (Hno & Hrefs & Hkeep & Hnext)].
    + by left.
    + right. unfold repository_state. by rewrite Hnext.
Qed.

End Commit.

Lemma commit_updated_posts_stops_after_blobs_witness :
  Demo.batch <> [] /\
  run (@commit_updated_posts Demo.plain Demo.batch ["DEV"]) Demo.world
  = (Raise (UnboundLocalError "parent_sha"),
     snd (run (@post_blobs Demo.plain Demo.batch) Demo.world)) /\
  network (snd (run (@post_blobs Demo.plain Demo.batch) Demo.world))
  = [ GetRepository "t0k3n" "dabrady" "blog";
      PostBlob (@dumps Demo.plain Demo.post_a) "utf-8" ].
Proof.
  assert (Hne : Demo.batch <> []) by discriminate.
  split; [exact Hne | split; [| vm_compute; reflexivity]].
  apply (proj2 (proj2 (@commit_updated_posts_stops_after_blobs
                         Demo.plain Demo.batch ["DEV"] Demo.world Hne))
           [("posts/a.md", "sha-1")]);
    vm_compute; reflexivity.
Defined.

Lemma commit_is_all_or_nothing_witness :
  (Demo.batch <> [] /\
   repository_state
     (host (snd (run (@commit_updated_posts Demo.plain Demo.batch ["DEV"])
                   Demo.world)))
   = repository_state (host Demo.world) /\
   ~ @committed Demo.plain Demo.batch Demo.world
       (snd (run (@commit_updated_posts Demo.plain Demo.batch ["DEV"])
               Demo.world)) /\
   pushed [("posts/a.md", "sha-1")] "c0" Demo.world
     (snd (run (push_commit [("posts/a.md", "sha-1")] "c0" ["DEV"])
             Demo.world))) /\
  (fst (run (push_commit [("posts/a.md", "sha-1")] "c0" ["DEV"])
          Samples.contended_world)
   = Raise (GitHubError "Update is not a fast forward") /\
   repository_state
     (host (snd (run (push_commit [("posts/a.md", "sha-1")] "c0" ["DEV"])
                   Samples.contended_world)))
   = repository_state (host Samples.contended_world)).
Proof.
  assert (Hne : Demo.batch <> []) by discriminate.
  assert (Hnot : ~ @committed Demo.plain Demo.batch Demo.world
                     (snd (run (@commit_updated_posts Demo.plain Demo.batch
                                  ["DEV"]) Demo.world))).
  { intros (sha & c & t & Hc & _). vm_compute in Hc. discriminate Hc. }
  assert (Hres : fst (run (push_commit [("posts/a.md", "sha-1")] "c0" ["DEV"])
                        Demo.world) = Ok (Some "sha-3"))
    by (vm_compute; reflexivity).
  assert (Hrej : fst (run (push_commit [("posts/a.md", "sha-1")] "c0" ["DEV"])
                        Samples.contended_world)
                 = Raise (GitHubError "Update is not a fast forward"))
    by (vm_compute; reflexivity).
  split.
  - destruct (@commit_is_all_or_nothing Demo.plain Demo.batch ["DEV"]
                Demo.world Hne) as [[Hyes | (Hrefs & _)] Hpush].
    + destruct (Hnot Hyes).
    + split; [exact Hne | split; [exact Hrefs | split; [exact Hnot |]]].
      destruct (Hpush [("posts/a.md", "sha-1")] "c0")
        as [[_ Hp] | [Hno _]]; [exact Hp |].
      destruct (Hno "sha-3" Hres).
  - split; [exact Hrej |].
    destruct (@commit_is_all_or_nothing Demo.plain Demo.batch ["DEV"]
                Samples.contended_world Hne) as [_ Hpush].
    destruct (Hpush [("posts/a.md", "sha-1")] "c0")
      as [[[body Hb] _] | (_ & Hrefs & _)]; [| exact Hrefs].
    rewrite Hrej in Hb. discriminate Hb.
Defined.

(** What [committed] asks for is what the protocol of the specification
    delivers on the demo repository. *)
Lemma spec_protocol_commits_on_demo :
  @committed Demo.plain Demo.batch Demo.world
    (snd (run (@commit_protocol_by_spec Demo.plain Demo.batch ["DEV"])
            Demo.world)).
Proof.
  exists "sha-3",
    {| message := "(syndicate): adding IDs for {'DEV'}"; tree := "sha-2";
       parents := ["c0"] |},
    {| entries := [ {| te_path := "posts/a.md"; te_mode := "100644";
                       te_type := "blob"; te_sha := "sha-1" |} ];
       base_tree := "c0" |}.
  split; [vm_compute; reflexivity |].
  split; [vm_compute; reflexivity |].
  split; [vm_compute; by left |].
  split; [vm_compute; reflexivity |].
  split.
  - intros path post Hget. cbn in Hget.
    destruct (String.eqb path "posts/a.md") eqn:Hp; [| discriminate].
    apply String.eqb_eq in Hp. injection Hget as <-. subst path.
    eexists. split; [by left |]. split; [reflexivity |].
    vm_compute. by left.
  - exists Demo.branch_url. vm_compute. reflexivity.
Qed.

(** The two protocols side by side.  On the demo repository, whose host
    accepts every request, [commit_updated_posts] raises before it asks for
    the reference update: nothing is logged, the branch stays at [c0], and
    the steps that follow still see the cursor at [c0].  The protocol as the
    specification words it moves the branch to the new commit there and
    advances the cursor to it. *)
Lemma demo_protocols_side_by_side :
  run (@commit_updated_posts Demo.plain Demo.batch ["DEV"]) Demo.world
  = (Raise (UnboundLocalError "parent_sha"),
     snd (run (@post_blobs Demo.plain Demo.batch) Demo.world)) /\
  stdout (snd (run (@commit_updated_posts Demo.plain Demo.batch ["DEV"])
                 Demo.world)) = [] /\
  refs (host (snd (run (@commit_updated_posts Demo.plain Demo.batch ["DEV"])
                     Demo.world))) !! Demo.branch_url = Some "c0" /\
  commit_cursor
    (next_step_environ
       (snd (run (@commit_updated_posts Demo.plain Demo.batch ["DEV"])
               Demo.world))) = Some "c0" /\
  fst (run (@commit_protocol_by_spec Demo.plain Demo.batch ["DEV"]) Demo.world)
  = Ok (Some "sha-4") /\
  stdout (snd (run (@commit_protocol_by_spec Demo.plain Demo.batch ["DEV"])
                 Demo.world))
  = ["::set-env name=SYNDICATE_SHA::sha-3"; "Syndicate posts marked."] /\
  refs (host (snd (run (@commit_protocol_by_spec Demo.plain Demo.batch ["DEV"])
                     Demo.world))) !! Demo.branch_url = Some "sha-3" /\
  commit_cursor
    (next_step_environ
       (snd (run (@commit_protocol_by_spec Demo.plain Demo.batch ["DEV"])
               Demo.world))) = Some "sha-3".
Proof. repeat split; vm_compute; reflexivity. Qed.

(** ** The Commit Cursor after the reference update *)

Section Cursor.
Context {fm : Frontmatter}.

(** C3.  The cursor moves exactly when the reference update succeeds.  The
    code that sends the update (lines 247 to 262) is run with a new commit
    at hand: the steps that follow find the Commit Cursor at the new commit
    exactly when the host answers the update with 200; the body of the
    response is then returned and the reference points at the new commit.
    When the host rejects the update, one error line is logged, nothing is
    returned, no reference moves, and the cursor is where it was, for the
    steps that follow and for [parent_sha()] in the running process; when
    the host cannot be reached the exception of [requests.put] passes
    through and the cursor is where it was.  The cursor is advanced by the
    [::set-env] line, which the runner applies for the steps that follow.
    And whatever [commit_updated_posts] is given, a run of it that does not
    get a reference update accepted leaves the cursor: as it never sends
    one, after every run the references and the cursor are where they were
    and no result is returned. *)
Theorem cursor_advances_exactly_on_success (batch : dict Post)
    (silos : list string) (w : World) (new_commit c : string) :
  commit_cursor (next_step_environ w) = Some c ->
  (new_commit <> c ->
   (commit_cursor
      (next_step_environ (snd (run (update_reference new_commit) w)))
    = Some new_commit
    <-> exists body, script (host w) (length (network w)) = Accept body)) /\
  (forall body, script (host w) (length (network w)) = Accept body ->
     fst (run (update_reference new_commit) w) = Ok (Some body) /\
     refs (host (snd (run (update_reference new_commit) w)))
     = <[ref_url (environ w !! "GITHUB_REPOSITORY")
           (environ w !! "GITHUB_REF") := new_commit]> (refs (host w)) /\
     commit_cursor
       (next_step_environ (snd (run (update_reference new_commit) w)))
     = Some new_commit) /\
  (forall body, script (host w) (length (network w)) = Reject body ->
     fst (run (update_reference new_commit) w) = Ok None /\
     stdout (snd (run (update_reference new_commit) w))
     = stdout w ++ ["::error::Failed to mark syndicated posts: " +:+ body] /\
     refs (host (snd (run (update_reference new_commit) w)))
     = refs (host w) /\
     commit_cursor
       (next_step_environ (snd (run (update_reference new_commit) w)))
     = Some c /\
     fst (run parent_sha (snd (run (update_reference new_commit) w)))
     = fst (run parent_sha w)) /\
  (script (host w) (length (network w)) = Down ->
     fst (run (update_reference new_commit) w) = Raise ConnectionError /\
     refs (host (snd (run (update_reference new_commit) w)))
     = refs (host w) /\
     commit_cursor
       (next_step_environ (snd (run (update_reference new_commit) w)))
     = Some c) /\
  commit_cursor
    (next_step_environ (snd (run (commit_updated_posts batch silos) w)))
  = Some c /\
  refs (host (snd (run (commit_updated_posts batch silos) w)))
  = refs (host w) /\
  (forall result,
     fst (run (commit_updated_posts batch silos) w) <> Ok (Some result)) /\
  (exists sent,
     network (snd (run (commit_updated_posts batch silos) w))
     = network w ++ sent /\ forallb blob_traffic sent = true).
Proof.
  intros Hcur.
  assert (Hsent : forall lines sent h,
            next_step_environ
              (with_stdout (stdout w ++ lines)
                 (with_host h (with_network sent w)))
            = fold_left
                (fun env line =>
                   match parse_set_env line with
                   | Some (k, v) => <[k := v]> env
                   | None => env
                   end)
                lines (next_step_environ w)).
  { intros lines sent h. unfold next_step_environ. cbn.
    by rewrite fold_left_app. }
  assert (Hsame : forall sent,
            next_step_environ (with_network sent w) = next_step_environ w)
    by reflexivity.
  assert (Hadv : forall sent h,
            commit_cursor
              (next_step_environ
                 (with_stdout
                    (stdout w ++ ["::set-env name=SYNDICATE_SHA::" +:+ new_commit;
                                  "Syndicate posts marked."])
                    (with_host h (with_network sent w))))
            = Some new_commit).
  { intros sent h. rewrite Hsent.
    change (fold_left _ _ (next_step_environ w))
      with (<["SYNDICATE_SHA" := new_commit]> (next_step_environ w)).
    by apply cursor_after_set_env with c. }
  assert (Hrej : forall body sent,
            commit_cursor
              (next_step_environ
                 (with_stdout
                    (stdout w
                     ++ ["::error::Failed to mark syndicated posts: " +:+ body])
                    (with_network sent w)))
            = Some c).
  { intros body sent.
    change (with_network sent w) with (with_host (host w) (with_network sent w)).
    by rewrite Hsent. }
  rewrite update_reference_run.
  split; [| split; [| split; [| split]]].
  - intros Hne.
    destruct (script (host w) (length (network w))) as [body|body|];
      cbn [snd]; split.
    + by exists body.
    + intros _. apply Hadv.
    + rewrite Hrej. by intros [= ->].
    + by intros [body' [=]].
    + rewrite Hsame, Hcur. by intros [= ->].
    + by intros [body' [=]].
  - intros body ->. cbn [fst snd]. split; [done | split; [done | apply Hadv]].
  - intros body ->. cbn [fst snd].
    split; [done | split; [done | split; [done | split; [apply Hrej |]]]].
    unfold run, parent_sha, bind, getenv, assert_, getenv_or, ret, raise.
    cbn [environ with_stdout with_network].
    by destruct (env_truthy (environ w !! "GITHUB_SHA")).
  - intros ->. cbn [fst snd]. by rewrite Hsame.
  - destruct batch as [|item batch].
    + assert (Hrun : run (commit_updated_posts [] silos) w
                     = (Ok None,
                        with_stdout (stdout w ++ ["All good: already marked."])
                          w)) by reflexivity.
      rewrite Hrun. cbn [fst snd].
      split; [| split; [done | split; [done |]]].
      * by rewrite next_step_environ_app.
      * exists []. by rewrite app_nil_r.
    + destruct (run (commit_updated_posts (item :: batch) silos) w)
        as [res w'] eqn:Hrun.
      assert (Hne : item :: batch <> []) by discriminate.
      destruct (commit_updated_posts_stops _ _ _ _ _ Hne Hrun) as [[e ->] Hw].
      cbn [fst snd].
      split; [by rewrite (cursor_after_blob_writes _ _ Hw) |].
      split; [apply Hw | split; [done | apply Hw]].
Qed.

End Cursor.

Lemma cursor_advances_exactly_on_success_witness :
  (commit_cursor (next_step_environ Demo.world) = Some "c0" /\
   "c9" <> "c0" /\
   script (host Demo.world) (length (network Demo.world)) = Accept "sha-0" /\
   fst (run (update_reference "c9") Demo.world) = Ok (Some "sha-0") /\
   refs (host (snd (run (update_reference "c9") Demo.world)))
   = <[Demo.branch_url := "c9"]> (refs (host Demo.world)) /\
   commit_cursor
     (next_step_environ (snd (run (update_reference "c9") Demo.world)))
   = Some "c9" /\
   commit_cursor
     (next_step_environ
        (snd (run (@commit_updated_posts Demo.plain Demo.batch ["DEV"])
                Demo.world)))
   = Some "c0") /\
  (commit_cursor (next_step_environ Samples.contended_world) = Some "c0" /\
   script (host Samples.contended_world)
     (length (network Samples.contended_world))
   = Reject "Update is not a fast forward" /\
   fst (run (update_reference "c9") Samples.contended_world) = Ok None /\
   stdout (snd (run (update_reference "c9") Samples.contended_world))
   = ["::error::Failed to mark syndicated posts: Update is not a fast forward"] /\
   commit_cursor
     (next_step_environ
        (snd (run (update_reference "c9") Samples.contended_world)))
   = Some "c0" /\
   ~ commit_cursor
       (next_step_environ
          (snd (run (update_reference "c9") Samples.contended_world)))
     = Some "c9").
Proof.
  assert (H1 : commit_cursor (next_step_environ Demo.world) = Some "c0")
    by (vm_compute; reflexivity).
  assert (H2 : "c9" <> "c0") by discriminate.
  assert (H3 : script (host Demo.world) (length (network Demo.world))
               = Accept "sha-0") by reflexivity.
  assert (H4 : commit_cursor (next_step_environ Samples.contended_world)
               = Some "c0") by (vm_compute; reflexivity).
  assert (H5 : script (host Samples.contended_world)
                 (length (network Samples.contended_world))
               = Reject "Update is not a fast forward") by reflexivity.
  split.
  - destruct (@cursor_advances_exactly_on_success Demo.plain Demo.batch ["DEV"]
                Demo.world "c9" "c0" H1)
      as (_ & Hok & _ & _ & Hrun & _).
    destruct (Hok "sha-0" H3) as (Hres & Hrefs & Hnext).
    split; [exact H1 | split; [exact H2 | split; [exact H3 |]]].
    split; [exact Hres | split; [exact Hrefs | split; [exact Hnext |]]].
    exact Hrun.
  - destruct (@cursor_advances_exactly_on_success Demo.plain Demo.batch ["DEV"]
                Samples.contended_world "c9" "c0" H4)
      as (Hiff & _ & Hrej & _).
    destruct (Hrej _ H5) as (Hres & Hout & _ & Hnext & _).
    split; [exact H4 | split; [exact H5 | split; [exact Hres |]]].
    split; [exact Hout | split; [exact Hnext |]].
    intros Hadv. apply (Hiff H2) in Hadv as [body Hbody].
    rewrite H5 in Hbody. discriminate Hbody.
Defined.

(** ** Dictionaries *)

Section Dict.
Context {V : Type}.
Implicit Types (d e : dict V) (k : string) (v : V).

Lemma dict_get_set_eq k v d : dict_get k (dict_set k v d) = Some v.
Proof.
  induction d as [|[k' v'] d IH]; cbn.
  - by rewrite String.eqb_refl.
  - destruct (String.eqb_spec k k') as [->|Hne]; cbn.
    + by rewrite String.eqb_refl.
    + by destruct (String.eqb_spec k k').
Qed.

Lemma dict_get_set_ne k k' v d :
  k <> k' -> dict_get k' (dict_set k v d) = dict_get k' d.
Proof.
  intros Hne. induction d as [|[k0 v0] d IH]; cbn.
  - by destruct (String.eqb_spec k' k) as [->|].
  - destruct (String.eqb_spec k k0) as [->|H0]; cbn.
    + by destruct (String.eqb_spec k' k0) as [->|].
    + by rewrite IH.
Qed.

Lemma dict_has_set k k' v d :
  dict_has k' (dict_set k v d) = String.eqb k k' || dict_has k' d.
Proof.
  unfold dict_has. destruct (String.eqb_spec k k') as [->|Hne]; cbn.
  - by rewrite dict_get_set_eq.
  - by rewrite dict_get_set_ne.
Qed.

Lemma dict_keys_set k v d :
  dict_keys (dict_set k v d)
  = if dict_has k d then dict_keys d else dict_keys d ++ [k].
Proof.
  unfold dict_has, dict_keys.
  induction d as [|[k' v'] d IH]; cbn; [done |].
  destruct (String.eqb_spec k k') as [->|Hne]; cbn; [done |].
  rewrite IH. by destruct (dict_get k d).
Qed.

Lemma dict_get_del_ne k k' d :
  k <> k' -> dict_get k' (dict_del k d) = dict_get k' d.
Proof.
  intros Hne. induction d as [|[k0 v0] d IH]; cbn; [done |].
  destruct (String.eqb_spec k k0) as [->|H0]; cbn.
  - rewrite IH. by destruct (String.eqb_spec k' k0) as [->|].
  - by rewrite IH.
Qed.

Lemma dict_keys_del k d :
  dict_keys (dict_del k d)
  = List.filter (fun x => negb (String.eqb k x)) (dict_keys d).
Proof.
  unfold dict_keys. induction d as [|[k0 v0] d IH]; cbn; [done |].
  destruct (String.eqb k k0); cbn; by rewrite IH.
Qed.

Lemma dict_has_In k d : dict_has k d = true <-> In k (dict_keys d).
Proof.
  unfold dict_has, dict_keys.
  induction d as [|[k0 v0] d IH]; cbn; [by split |].
  destruct (String.eqb_spec k k0) as [->|Hne].
  - split; auto.
  - rewrite IH. split; [auto | by intros [? | ?]; [subst |]].
Qed.

Lemma dict_set_NoDup k v d :
  List.NoDup (dict_keys d) -> List.NoDup (dict_keys (dict_set k v d)).
Proof.
  intros Hd. rewrite dict_keys_set.
  destruct (dict_has k d) eqn:Hk; [done |].
  apply List.NoDup_app; [done | repeat constructor; by intros [] |].
  intros a Ha [<- | []]. apply dict_has_In in Ha. congruence.
Qed.

(** Updating leaves alone every key the update does not name. *)
Lemma dict_get_update_other k e :
  forall d, dict_has k e = false ->
  dict_get k (dict_update d e) = dict_get k d.
Proof.
  unfold dict_update.
  induction e as [|[k1 v1] e IH]; intros d Hk; cbn; [done |].
  unfold dict_has in Hk. cbn in Hk.
  destruct (String.eqb_spec k k1) as [->|Hne]; [done |].
  rewrite IH by exact Hk. by apply dict_get_set_ne.
Qed.

(** Updating keeps the keys where they are and puts the new ones at the
    end, in the order of the update. *)
Lemma dict_keys_update e :
  forall d, List.NoDup (dict_keys e) ->
  dict_keys (dict_update d e)
  = dict_keys d ++ List.filter (fun k => negb (dict_has k d)) (dict_keys e).
Proof.
  unfold dict_update.
  induction e as [|[k1 v1] e IH]; intros d Hnd.
  - cbn. by rewrite app_nil_r.
  - change (dict_keys ((k1, v1) :: e)) with (k1 :: dict_keys e) in *.
    inversion Hnd as [|? ? Hk1 He]; subst.
    cbn [fold_left fst snd List.filter].
    rewrite IH by exact He. rewrite dict_keys_set.
    assert (Hext :
      List.filter (fun k => negb (dict_has k (dict_set k1 v1 d))) (dict_keys e)
      = List.filter (fun k => negb (dict_has k d)) (dict_keys e)).
    { apply filter_ext_in. intros k Hk. rewrite dict_has_set.
      destruct (String.eqb_spec k1 k) as [->|]; [done | done]. }
    rewrite Hext. destruct (dict_has k1 d); cbn; [done |].
    by rewrite <- app_assoc.
Qed.

End Dict.

(** ** Marking posts *)

Section Marking.
Context {fm : Frontmatter}.

Lemma rfor_each_inv {A S} (I : S -> Prop) (xs : list A)
    (body : S -> A -> Result S) :
  (forall acc x acc', I acc -> In x xs -> body acc x = Ok acc' -> I acc') ->
  forall acc res, I acc -> rfor_each xs body acc = Ok res -> I res.
Proof.
  induction xs as [|x xs IH]; intros Hstep acc res Hacc; cbn.
  - by intros [= <-].
  - destruct (body acc x) as [acc'|e] eqn:Hb; cbn; [| done].
    apply IH.
    + intros a y a' Ha Hy. apply Hstep; [done | by right].
    + eapply Hstep; [exact Hacc | by left | exact Hb].
Qed.

Lemma length_append (a b : string) :
  String.length (a +:+ b) = (String.length a + String.length b)%nat.
Proof. induction a as [|c a IH]; simpl; [done | by f_equal]. Qed.

(** A syndicate key is never one of the names [Post.__init__] keeps for
    itself. *)
Lemma syndicate_key_not_reserved (silo : string) :
  syndicate_key_for silo <> "content" /\ syndicate_key_for silo <> "handler".
Proof.
  unfold syndicate_key_for.
  split; intros H; apply (f_equal String.length) in H;
    rewrite length_append in H; cbn in H; lia.
Qed.

Lemma syndicate_id_for_post (p : Post) (silo : string) (x : option Value) :
  syndicate_id_for (APost p) silo = Ok x ->
  x = dict_get (syndicate_key_for silo) (metadata p).
Proof.
  unfold syndicate_id_for, rassert. cbn.
  destruct (String.eqb silo ""); cbn; [done |]. by intros [= <-].
Qed.

(** What the inner loop collects: distinct keys, each the syndicate key of
    a silo of the input that the post holds no truthy value for. *)
Lemma new_syndicate_ids_sound (p : Post) (ids : dict Value)
    (s0 s1 : list string) (new_ids : dict Value) :
  new_syndicate_ids_for p ids s0 = Ok (new_ids, s1) ->
  List.NoDup (dict_keys new_ids) /\
  forall k, In k (dict_keys new_ids) ->
    exists silo sid, In (silo, sid) ids /\ k = syndicate_key_for silo /\
      truthy_opt (dict_get k (metadata p)) = false.
Proof.
  unfold new_syndicate_ids_for. intros Hrun.
  pose (I := fun acc : dict Value * list string =>
               List.NoDup (dict_keys (fst acc)) /\
               forall k, In k (dict_keys (fst acc)) ->
                 exists silo sid, In (silo, sid) ids /\
                   k = syndicate_key_for silo /\
                   truthy_opt (dict_get k (metadata p)) = false).
  change (I (new_ids, s1)).
  eapply (rfor_each_inv I); [| | exact Hrun].
  - intros [d s] [silo sid] acc' [Hnd Hkeys] Hin. cbn [fst snd] in *.
    destruct (syndicate_id_for (APost p) silo) as [x|e] eqn:Hx; cbn; [| done].
    apply syndicate_id_for_post in Hx. subst x.
    destruct (truthy_opt (dict_get (syndicate_key_for silo) (metadata p)))
      eqn:Ht; cbn; intros [= <-]; (split; cbn [fst]); try done.
    + by apply dict_set_NoDup.
    + intros k Hk. apply dict_has_In in Hk. rewrite dict_has_set in Hk.
      destruct (String.eqb_spec (syndicate_key_for silo) k) as [Heq|Hne].
      * subst k. by exists silo, sid.
      * apply Hkeys. by apply dict_has_In.
  - split; [constructor | by intros k []].
Qed.

Lemma new_syndicate_ids_skip_marked (p : Post) (ids : dict Value)
    (s0 s1 : list string) (new_ids : dict Value) (k : string) :
  new_syndicate_ids_for p ids s0 = Ok (new_ids, s1) ->
  truthy_opt (dict_get k (metadata p)) = true ->
  dict_has k new_ids = false.
Proof.
  intros Hrun Hk. destruct (new_syndicate_ids_sound _ _ _ _ _ Hrun) as [_ Hs].
  destruct (dict_has k new_ids) eqn:Hhas; [| done].
  apply dict_has_In, Hs in Hhas as (? & ? & _ & _ & Hf). congruence.
Qed.

Lemma filter_all {A} (f : A -> bool) (l : list A) :
  (forall x, In x l -> f x = true) -> List.filter f l = l.
Proof.
  induction l as [|x l IH]; intros H; cbn; [done |].
  rewrite (H x) by (by left). rewrite IH; [done |].
  intros y Hy. apply H. by right.
Qed.

(** The metadata of the merged post, for a key that is neither
    ['content'] nor ['handler'] and that the update does not name. *)
Lemma merged_post_get (p p' : Post) (new_ids : dict Value) (k : string) :
  merged_post p new_ids = Ok p' ->
  k <> "content" -> k <> "handler" ->
  dict_has k new_ids = false ->
  dict_get k (metadata p') = dict_get k (metadata p).
Proof.
  unfold merged_post, Post_of_kwargs. intros Hm Hc Hh Hk.
  destruct (dict_has "self" _); [done |].
  destruct (dict_get "content" _); [| done].
  injection Hm as <-. cbn [metadata].
  rewrite dict_get_del_ne by done. rewrite dict_get_del_ne by done.
  rewrite dict_get_update_other by done.
  unfold to_dict. by rewrite dict_get_set_ne.
Qed.

End Marking.

Section MarkingClaims.
Context {fm : Frontmatter}.

Lemma dict_get_del_eq {V} (k : string) (d : dict V) :
  dict_get k (dict_del k d) = None.
Proof.
  induction d as [|[k0 v0] d IH]; cbn; [done |].
  destruct (String.eqb_spec k k0) as [->|Hne]; [done |]. cbn.
  by destruct (String.eqb_spec k k0).
Qed.

Lemma dict_get_update_in {V} (k : string) (v : V) (e : dict V) :
  List.NoDup (dict_keys e) -> dict_get k e = Some v ->
  forall d, dict_get k (dict_update d e) = Some v.
Proof.
  unfold dict_update. induction e as [|[k1 v1] e IH]; intros Hnd Hk d; [done |].
  change (dict_keys ((k1, v1) :: e)) with (k1 :: dict_keys e) in Hnd.
  inversion Hnd as [|? ? Hk1 He]; subst. cbn [fold_left fst snd].
  cbn in Hk. destruct (String.eqb_spec k k1) as [->|Hne].
  - injection Hk as ->.
    change (fold_left _ e (dict_set k1 v d))
      with (dict_update (dict_set k1 v d) e).
    rewrite dict_get_update_other; [apply dict_get_set_eq |].
    destruct (dict_has k1 e) eqn:E; [| done].
    apply dict_has_In in E. by destruct Hk1.
  - by apply IH.
Qed.

Lemma id_for_key_is_a_key (k : string) (ids : dict Value) (v : Value) :
  id_for_key k ids = Some v -> exists silo, k = syndicate_key_for silo.
Proof.
  induction ids as [|[silo sid] ids IH]; cbn; [done |].
  destruct (id_for_key k ids) as [v0|]; [intros [= <-]; by apply IH |].
  destruct (String.eqb_spec (syndicate_key_for silo) k) as [Heq|]; [| done].
  intros _. by exists silo.
Qed.

(** The IDs the inner loop collects, key by key: nothing for a key the post
    holds a truthy value for, and otherwise the ID the silos give for the
    key. *)
Lemma silo_loop_get (p : Post) (ids : dict Value) :
  forall acc res,
  rfor_each ids
    (fun acc item =>
       let+ existing := syndicate_id_for (APost p) (fst item) in
       if negb (truthy_opt existing)
       then Ok (dict_set (syndicate_key_for (fst item)) (snd item) (fst acc),
                set_add (fst item) (snd acc))
       else Ok acc) acc = Ok res ->
  forall k,
    dict_get k (fst res)
    = if truthy_opt (dict_get k (metadata p)) then dict_get k (fst acc)
      else match id_for_key k ids with
           | Some v => Some v
           | None => dict_get k (fst acc)
           end.
Proof.
  induction ids as [|[silo sid] ids IH]; intros acc res.
  - intros [= <-] k. cbn. by destruct (truthy_opt _).
  - cbn [rfor_each fst snd].
    destruct (syndicate_id_for (APost p) silo) as [x|e] eqn:Hx;
      cbn [rbind]; [| done].
    apply syndicate_id_for_post in Hx. subst x.
    destruct (truthy_opt (dict_get (syndicate_key_for silo) (metadata p)))
      eqn:Hs; cbn [negb rbind]; intros Hres k;
      rewrite (IH _ _ Hres k); cbn [fst id_for_key snd].
    + destruct (truthy_opt (dict_get k (metadata p))) eqn:Hk; [done |].
      destruct (id_for_key k ids); [done |].
      destruct (String.eqb_spec (syndicate_key_for silo) k) as [<-|]; [| done].
      congruence.
    + destruct (truthy_opt (dict_get k (metadata p))) eqn:Hk.
      * apply dict_get_set_ne. intros <-. congruence.
      * destruct (id_for_key k ids); [done |].
        destruct (String.eqb_spec (syndicate_key_for silo) k) as [<-|Hne].
        -- apply dict_get_set_eq.
        -- by apply dict_get_set_ne.
Qed.

Lemma new_syndicate_ids_get (p : Post) (ids : dict Value)
    (s0 s1 : list string) (new_ids : dict Value) (k : string) :
  new_syndicate_ids_for p ids s0 = Ok (new_ids, s1) ->
  dict_get k new_ids
  = if truthy_opt (dict_get k (metadata p)) then None else id_for_key k ids.
Proof.
  unfold new_syndicate_ids_for. intros Hrun.
  pose proof (silo_loop_get p ids _ _ Hrun k) as Hget. cbn [fst] in Hget.
  rewrite Hget. cbn.
  destruct (truthy_opt _); [done |]. by destruct (id_for_key k ids).
Qed.

(** C4 (as amended).  For a header as the parser builds it, merging the new
    syndicate IDs succeeds and keeps the body.  Key by key, the merged header
    holds the old value where that value is truthy, the ID the silos give for
    the key where the old value is absent or falsy, and the old value where
    the silos give none; so every key with a truthy value, and every key the
    new IDs do not name, keeps its value, and every new ID is there under its
    key.  The old keys stay in their order and the keys that were absent
    follow them, in the order of the new IDs. *)
Theorem merge_keeps_marked_header (p : Post) (ids : dict Value)
    (s0 s1 : list string) (new_ids : dict Value) :
  header_ok p ->
  new_syndicate_ids_for p ids s0 = Ok (new_ids, s1) ->
  exists p',
    merged_post p new_ids = Ok p' /\
    content p' = content p /\
    (forall k,
       dict_get k (metadata p')
       = if truthy_opt (dict_get k (metadata p)) then dict_get k (metadata p)
         else match id_for_key k ids with
              | Some v => Some v
              | None => dict_get k (metadata p)
              end) /\
    (forall k v, dict_get k new_ids = Some v ->
       dict_get k (metadata p') = Some v) /\
    (forall k v, dict_get k (metadata p) = Some v -> truthy v = true ->
       dict_get k (metadata p') = Some v) /\
    (forall k v, dict_get k (metadata p) = Some v ->
       dict_has k new_ids = false -> dict_get k (metadata p') = Some v) /\
    dict_keys (metadata p')
    = dict_keys (metadata p)
      ++ List.filter (fun k => negb (dict_has k (metadata p)))
           (dict_keys new_ids).
Proof.
  intros (Hc & Hh & Hself) Hnew.
  destruct (new_syndicate_ids_sound _ _ _ _ _ Hnew) as [Hnd Hkeys].
  assert (Hres : forall k, In k (dict_keys new_ids) ->
                   k <> "content" /\ k <> "handler" /\ k <> "self").
  { intros k Hk. destruct (Hkeys k Hk) as (silo & _ & _ & -> & _).
    destruct (syndicate_key_not_reserved silo) as [? ?].
    split; [done | split; [done |]].
    unfold syndicate_key_for. intros Hlen.
    apply (f_equal String.length) in Hlen.
    rewrite length_append in Hlen. cbn in Hlen. lia. }
  assert (Hno : forall k, k = "content" \/ k = "handler" \/ k = "self" ->
                  dict_has k new_ids = false).
  { intros k Hk. destruct (dict_has k new_ids) eqn:E; [| done].
    apply dict_has_In, Hres in E. destruct E as (? & ? & ?).
    by destruct Hk as [-> | [-> | ->]]. }
  assert (Hbody : dict_get "content" (dict_update (to_dict p) new_ids)
                  = Some (VStr (content p))).
  { rewrite dict_get_update_other by (apply Hno; auto).
    apply dict_get_set_eq. }
  assert (Hnoself : dict_has "self" (dict_update (to_dict p) new_ids) = false).
  { unfold dict_has. rewrite dict_get_update_other by (apply Hno; auto).
    unfold to_dict. rewrite dict_get_set_ne by done. by rewrite Hself. }
  assert (Hm : merged_post p new_ids
               = Ok {| metadata :=
                         dict_del "handler"
                           (dict_del "content"
                              (dict_update (to_dict p) new_ids));
                       content := content p;
                       handler :=
                         dict_get "handler"
                           (dict_update (to_dict p) new_ids) |}).
  { unfold merged_post, Post_of_kwargs. by rewrite Hnoself, Hbody. }
  eexists. split; [exact Hm |]. split; [done |].
  assert (Hother : forall k v, dict_get k (metadata p) = Some v ->
            dict_has k new_ids = false ->
            dict_get k
              (dict_del "handler"
                 (dict_del "content" (dict_update (to_dict p) new_ids)))
            = Some v).
  { intros k v Hk Hnone.
    rewrite <- Hk.
    apply (merged_post_get p _ new_ids k Hm); [| | done];
      intros ->; congruence. }
  assert (Hnewval : forall k v, dict_get k new_ids = Some v ->
            dict_get k
              (dict_del "handler"
                 (dict_del "content" (dict_update (to_dict p) new_ids)))
            = Some v).
  { intros k v Hk.
    assert (Hin : In k (dict_keys new_ids)).
    { apply dict_has_In. unfold dict_has. by rewrite Hk. }
    destruct (Hres k Hin) as (Hkc & Hkh & _).
    rewrite !dict_get_del_ne by done. by apply dict_get_update_in. }
  cbn [metadata].
  split; [| split; [exact Hnewval | split; [| split; [exact Hother |]]]].
  - intros k. pose proof (new_syndicate_ids_get _ _ _ _ _ k Hnew) as Hget.
    destruct (dict_get k new_ids) as [v|] eqn:Hk.
    + rewrite (Hnewval k v Hk).
      destruct (truthy_opt (dict_get k (metadata p))); [done |].
      by rewrite <- Hget.
    + assert (Hrhs :
        (if truthy_opt (dict_get k (metadata p)) then dict_get k (metadata p)
         else match id_for_key k ids with
              | Some v => Some v
              | None => dict_get k (metadata p)
              end) = dict_get k (metadata p)).
      { destruct (truthy_opt (dict_get k (metadata p))); [done |].
        by rewrite <- Hget. }
      rewrite Hrhs.
      destruct (String.eqb_spec k "content") as [->|Hkc].
      { rewrite dict_get_del_ne by done. by rewrite dict_get_del_eq, Hc. }
      destruct (String.eqb_spec k "handler") as [->|Hkh].
      { by rewrite dict_get_del_eq, Hh. }
      apply (merged_post_get p _ new_ids k Hm); [done | done |].
      unfold dict_has. by rewrite Hk.
  - intros k v Hk Ht. apply Hother; [done |].
    apply (new_syndicate_ids_skip_marked _ _ _ _ _ _ Hnew).
    by rewrite Hk.
  - rewrite !dict_keys_del, dict_keys_update by done.
    unfold to_dict. rewrite dict_keys_set.
    replace (dict_has "content" (metadata p)) with false
      by (unfold dict_has; by rewrite Hc).
    assert (Hold : forall reserved,
              dict_get reserved (metadata p) = None ->
              List.filter (fun x => negb (String.eqb reserved x))
                (dict_keys (metadata p)) = dict_keys (metadata p)).
    { intros reserved Hr. apply filter_all. intros x Hx.
      destruct (String.eqb_spec reserved x) as [->|]; [| done].
      apply dict_has_In in Hx. unfold dict_has in Hx. by rewrite Hr in Hx. }
    rewrite !List.filter_app, (Hold "content" Hc).
    change (List.filter (fun x => negb (String.eqb "content" x)) ["content"])
      with (@nil string).
    cbn [List.filter]. rewrite app_nil_r, (Hold "handler" Hh). f_equal.
    rewrite !filter_filter.
    apply filter_ext_in. intros k Hk. destruct (Hres k Hk) as (Hkc & Hkh & _).
    rewrite dict_has_set.
    destruct (String.eqb_spec "content" k) as [<-|]; [done |].
    destruct (String.eqb_spec "handler" k) as [<-|]; [done |].
    cbn. by rewrite !andb_true_r.
Qed.

Lemma updated_posts_origin (ids_by_path : dict (dict Value))
    (posts batch : dict Post) (silos : list string) :
  updated_posts ids_by_path posts = Ok (batch, silos) ->
  forall path p', dict_get path batch = Some p' ->
    exists p ids s0 new_ids s1,
      dict_get path posts = Some p /\ In (path, ids) ids_by_path /\
      new_syndicate_ids_for p ids s0 = Ok (new_ids, s1) /\
      new_ids <> [] /\ merged_post p new_ids = Ok p'.
Proof.
  unfold updated_posts. intros Hrun.
  pose (I := fun acc : dict Post * list string =>
               forall path p', dict_get path (fst acc) = Some p' ->
                 exists p ids s0 new_ids s1,
                   dict_get path posts = Some p /\ In (path, ids) ids_by_path /\
                   new_syndicate_ids_for p ids s0 = Ok (new_ids, s1) /\
                   new_ids <> [] /\ merged_post p new_ids = Ok p').
  change (I (batch, silos)).
  eapply (rfor_each_inv I); [| | exact Hrun]; [| by intros path p'].
  intros [b s] [path0 ids0] acc' Hacc Hin. cbn [fst snd].
  unfold getitem.
  destruct (dict_get path0 posts) as [p0|] eqn:Hp0; cbn [rbind]; [| done].
  destruct (new_syndicate_ids_for p0 ids0 s) as [[new_ids s']|e] eqn:Hnew;
    cbn [rbind fst snd]; [| done].
  destruct new_ids as [|kv new_ids]; cbn [is_empty].
  - intros [= <-]. exact Hacc.
  - destruct (merged_post p0 (kv :: new_ids)) as [up|e] eqn:Hup;
      cbn [rbind]; [| done].
    intros [= <-] path p'. cbn [fst].
    destruct (String.eqb_spec path0 path) as [->|Hne].
    + rewrite dict_get_set_eq. intros [= <-].
      by exists p0, ids0, s, (kv :: new_ids), s'.
    + rewrite dict_get_set_ne by done. apply Hacc.
Qed.

(** C5.  Where a post holds a record (a truthy value under the silo's
    syndicate key), marking skips the pair: the key is not among the new
    IDs collected for the post, and the post as committed holds the value it
    had.  A post that holds a record for every silo it was given an ID for
    is not in the batch that goes to the commit. *)
Theorem marked_pairs_are_skipped (ids_by_path : dict (dict Value))
    (posts batch : dict Post) (silos : list string) (path : string)
    (p : Post) :
  updated_posts ids_by_path posts = Ok (batch, silos) ->
  dict_get path posts = Some p ->
  (forall silo,
     truthy_opt (dict_get (syndicate_key_for silo) (metadata p)) = true ->
     (forall ids s0 new_ids s1,
        new_syndicate_ids_for p ids s0 = Ok (new_ids, s1) ->
        dict_has (syndicate_key_for silo) new_ids = false) /\
     (forall p', dict_get path batch = Some p' ->
        dict_get (syndicate_key_for silo) (metadata p')
        = dict_get (syndicate_key_for silo) (metadata p))) /\
  ((forall ids silo sid, In (path, ids) ids_by_path -> In (silo, sid) ids ->
      truthy_opt (dict_get (syndicate_key_for silo) (metadata p)) = true) ->
   dict_get path batch = None).
Proof.
  intros Hrun Hp. split.
  - intros silo Hrec. split.
    + intros ids s0 new_ids s1 Hnew.
      by apply (new_syndicate_ids_skip_marked _ _ _ _ _ _ Hnew).
    + intros p' Hp'.
      destruct (updated_posts_origin _ _ _ _ Hrun _ _ Hp')
        as (p0 & ids & s0 & new_ids & s1 & Hp0 & _ & Hnew & _ & Hm).
      assert (p0 = p) as -> by congruence.
      destruct (syndicate_key_not_reserved silo) as [Hc Hh].
      apply (merged_post_get _ _ _ _ Hm Hc Hh).
      by apply (new_syndicate_ids_skip_marked _ _ _ _ _ _ Hnew).
  - intros Hall. destruct (dict_get path batch) as [p'|] eqn:Hp'; [| done].
    destruct (updated_posts_origin _ _ _ _ Hrun _ _ Hp')
      as (p0 & ids & s0 & new_ids & s1 & Hp0 & Hin & Hnew & Hne & _).
    assert (p0 = p) as -> by congruence.
    destruct new_ids as [|[k v] new_ids]; [done |].
    destruct (new_syndicate_ids_sound _ _ _ _ _ Hnew) as [_ Hkeys].
    destruct (Hkeys k ltac:(by left)) as (silo & sid & Hs & -> & Hf).
    rewrite (Hall ids silo sid Hin Hs) in Hf. done.
Qed.

End MarkingClaims.

(** C4 (as stated, it fails).  A header that holds the syndicate key with a
    falsy value, here a placeholder [dev_syndicate_id:] left empty, gets the
    new ID written over it: the value of a key that was there has changed. *)
Lemma merge_overwrites_placeholder :
  @updated_posts Demo.plain
    [("posts/a.md", Demo.dev_ids)] [("posts/a.md", Demo.post_placeholder)]
  = Ok ([("posts/a.md", Demo.placeholder_marked)], ["DEV"]) /\
  @new_syndicate_ids_for Demo.plain Demo.post_placeholder Demo.dev_ids []
  = Ok ([("dev_syndicate_id", VInt 42)], ["DEV"]) /\
  merged_post Demo.post_placeholder [("dev_syndicate_id", VInt 42)]
  = Ok Demo.placeholder_marked /\
  ~ keeps_values (metadata Demo.post_placeholder)
      (metadata Demo.placeholder_marked).
Proof.
  split; [reflexivity | split; [reflexivity | split; [reflexivity |]]].
  intros H. specialize (H "dev_syndicate_id" VNone eq_refl). discriminate H.
Qed.

Lemma merge_keeps_marked_header_witness :
  header_ok Demo.post_a /\
  @new_syndicate_ids_for Demo.plain Demo.post_a Demo.dev_ids []
  = Ok ([("dev_syndicate_id", VInt 42)], ["DEV"]) /\
  exists p',
    merged_post Demo.post_a [("dev_syndicate_id", VInt 42)] = Ok p' /\
    content p' = "Hi." /\
    dict_get "title" (metadata p') = Some (VStr "Hello") /\
    dict_get "dev_syndicate_id" (metadata p') = Some (VInt 42) /\
    dict_keys (metadata p') = ["title"; "dev_syndicate_id"].
Proof.
  assert (H1 : header_ok Demo.post_a) by (repeat split; reflexivity).
  assert (H2 : @new_syndicate_ids_for Demo.plain Demo.post_a Demo.dev_ids []
               = Ok ([("dev_syndicate_id", VInt 42)], ["DEV"]))
    by reflexivity.
  split; [exact H1 | split; [exact H2 |]].
  destruct (@merge_keeps_marked_header Demo.plain Demo.post_a Demo.dev_ids
              [] ["DEV"] [("dev_syndicate_id", VInt 42)] H1 H2)
    as (p' & Hm & Hc & _ & Hnew & Ht & _ & Hk).
  exists p'. split; [exact Hm | split; [exact Hc |]].
  split; [apply Ht; reflexivity |].
  split; [apply Hnew; reflexivity | exact Hk].
Defined.

Lemma marked_pairs_are_skipped_witness :
  @updated_posts Demo.plain Demo.ids_by_path Demo.posts_by_path
  = Ok ([("posts/c.md", Demo.post_c_marked)], ["DEV"]) /\
  dict_get "posts/a.md" Demo.posts_by_path = Some Demo.post_marked /\
  truthy_opt (dict_get (@syndicate_key_for Demo.plain "DEV")
                (metadata Demo.post_marked))
  = true /\
  dict_get "posts/a.md" [("posts/c.md", Demo.post_c_marked)] = None.
Proof.
  assert (H1 : @updated_posts Demo.plain Demo.ids_by_path Demo.posts_by_path
               = Ok ([("posts/c.md", Demo.post_c_marked)], ["DEV"]))
    by reflexivity.
  assert (H2 : dict_get "posts/a.md" Demo.posts_by_path = Some Demo.post_marked)
    by reflexivity.
  split; [exact H1 | split; [exact H2 | split; [reflexivity |]]].
  apply (proj2 (@marked_pairs_are_skipped Demo.plain _ _ _ _ "posts/a.md" _
                  H1 H2)).
  intros ids silo sid [Hin | [Hin | []]] Hs.
  - injection Hin as <-. destruct Hs as [Hs | []]. by injection Hs as <- <-.
  - discriminate Hin.
Defined.

(** * Further properties of [syndicate/utils.py] *)

(** ** The repository handle and the reads *)

Section MoreReads.

(** X1.  Once [repo()] has returned, every later call gives the same handle and
    does nothing else: no request, and no look at the environment, whatever
    became of it. *)
Theorem repo_is_memoised (w w1 : World) (r : Repository) :
  run repo w = (Ok r, w1) ->
  forall w2, repo_cache w2 = repo_cache w1 -> run repo w2 = (Ok r, w2).
Proof.
  intros Hrun w2 Hc. destruct (repo_effect _ _ _ Hrun) as (_ & _ & _ & _ & Hr).
  apply repo_cached. rewrite Hc. by apply Hr.
Qed.

(** X2.  A first call of [repo()] without a token, or with a token but without a
    repository name, fails its assertion before anything is sent; and no
    failing call, whatever its cause, leaves a handle in the memo, so the
    next call starts over. *)
Theorem repo_requires_credentials (w : World) :
  repo_cache w = None ->
  (env_truthy (environ w !! "GITHUB_TOKEN") = false ->
   run repo w = (Raise (AssertionError "missing GITHUB_TOKEN"), w)) /\
  (env_truthy (environ w !! "GITHUB_TOKEN") = true ->
   env_truthy (environ w !! "GITHUB_REPOSITORY") = false ->
   run repo w = (Raise (AssertionError "missing GITHUB_REPOSITORY"), w)) /\
  (forall e w1, run repo w = (Raise e, w1) -> repo_cache w1 = None).
Proof.
  intros Hc. unfold run, repo. rewrite Hc.
  unfold bind, getenv, assert_, ret, raise. repeat split.
  - by intros ->.
  - by intros -> ->.
  - intros e w1.
    destruct (env_truthy (environ w !! "GITHUB_TOKEN")); cbn;
      [| by intros [= _ <-]].
    destruct (env_truthy (environ w !! "GITHUB_REPOSITORY")); cbn;
      [| by intros [= _ <-]].
    destruct (split_on "/" (env_str (environ w !! "GITHUB_REPOSITORY")))
      as [|owner [|name [|? ?]]]; cbn; try (by intros [= _ <-]).
    unfold gh_repository, bind, send, ask, ret, raise; cbn.
    destruct (visible (host w) _ owner name); cbn; [done |].
    by intros [= _ <-].
Qed.

(** X3.  Without [GITHUB_SHA] nothing can be read, even when [SYNDICATE_SHA] names
    a commit: [get_trigger_payload] fails at once and sends nothing, and
    [file_contents] fails as well, but only after [repo()] has run. *)
Theorem reads_require_trigger_sha (w w1 : World) (r : Repository)
    (name : string) :
  env_truthy (environ w !! "GITHUB_SHA") = false ->
  run repo w = (Ok r, w1) ->
  run get_trigger_payload w
  = (Raise (AssertionError "missing GITHUB_SHA"), w) /\
  run (file_contents name) w
  = (Raise (AssertionError "missing GITHUB_SHA"), w1).
Proof.
  intros Hsha Hrepo. split.
  - unfold run, get_trigger_payload, bind, getenv, assert_, raise.
    by rewrite Hsha.
  - destruct (repo_effect _ _ _ Hrepo) as (He & _).
    unfold file_contents. rewrite run_bind, Hrepo, run_bind.
    unfold run, parent_sha, bind, getenv, assert_, raise.
    by rewrite He, Hsha.
Qed.

Lemma startswith_append (p rest : string) : startswith (p +:+ rest) p = true.
Proof.
  unfold startswith. induction p as [|c p IH]; simpl.
  - by destruct rest.
  - destruct (ascii_dec c c); [exact IH | done].
Qed.

(** X4.  [get_posts] selects by the characters the file name begins with, not by
    directory: a changed file that is not deleted and whose name is
    [post_dir] followed by anything at all is fetched as a post. *)
Theorem get_posts_matches_by_prefix (w w1 : World) (post_dir rest st cursor : string)
    (c : Contents) :
  st <> "deleted" ->
  run get_trigger_payload w
  = (Ok [ {| filename := post_dir +:+ rest; status := st |} ], w1) ->
  commit_cursor (environ w) = Some cursor ->
  contents_at (host w) (post_dir +:+ rest) cursor = Some c ->
  fst (run (get_posts post_dir) w) = Ok [c] /\
  network (snd (run (get_posts post_dir) w))
  = network w1 ++ [GetContents (post_dir +:+ rest) cursor].
Proof.
  intros Hst Hpay Hcur Hc.
  destruct (get_trigger_payload_leaves _ _ _ Hpay) as (He & Hh & r & Hr).
  assert (Hrun : run (get_posts post_dir) w
                 = (Ok [c],
                    with_network
                      (network w1 ++ [GetContents (post_dir +:+ rest) cursor])
                      w1)).
  { unfold get_posts. rewrite run_bind, Hpay, run_bind.
    unfold assert_ at 1, is_empty, ret at 1, run at 1. cbn [negb].
    cbn [List.filter filename status]. rewrite startswith_append.
    cbn [List.filter filename status].
    destruct (String.eqb_spec st "deleted") as [|_]; [done |]. cbn [negb].
    rewrite (list_comp_file_contents _ w1 r cursor [c]).
    - done.
    - done.
    - by rewrite He.
    - repeat constructor. by rewrite Hh. }
  by rewrite Hrun.
Qed.

End MoreReads.

Lemma repo_is_memoised_witness :
  run repo Demo.world = (Ok Demo.blog, Demo.opened Demo.world) /\
  repo_cache (Demo.opened Samples.anonymous_world)
  = repo_cache (Demo.opened Demo.world) /\
  run repo (Demo.opened Samples.anonymous_world)
  = (Ok Demo.blog, Demo.opened Samples.anonymous_world).
Proof.
  assert (H1 : run repo Demo.world = (Ok Demo.blog, Demo.opened Demo.world))
    by (vm_compute; reflexivity).
  split; [exact H1 | split; [reflexivity |]].
  exact (repo_is_memoised _ _ _ H1 (Demo.opened Samples.anonymous_world)
           eq_refl).
Defined.

Lemma repo_requires_credentials_witness :
  repo_cache Samples.anonymous_world = None /\
  env_truthy (environ Samples.anonymous_world !! "GITHUB_TOKEN") = false /\
  run repo Samples.anonymous_world
  = (Raise (AssertionError "missing GITHUB_TOKEN"), Samples.anonymous_world).
Proof.
  assert (H1 : repo_cache Samples.anonymous_world = None) by reflexivity.
  assert (H2 : env_truthy (environ Samples.anonymous_world !! "GITHUB_TOKEN")
               = false) by (vm_compute; reflexivity).
  split; [exact H1 | split; [exact H2 |]].
  exact (proj1 (repo_requires_credentials _ H1) H2).
Defined.

Lemma reads_require_trigger_sha_witness :
  env_truthy (environ Samples.no_sha_world !! "GITHUB_SHA") = false /\
  environ Samples.no_sha_world !! "SYNDICATE_SHA" = Some "c1" /\
  run repo Samples.no_sha_world
  = (Ok Demo.blog, Demo.opened Samples.no_sha_world) /\
  run (file_contents "posts/a.md") Samples.no_sha_world
  = (Raise (AssertionError "missing GITHUB_SHA"),
     Demo.opened Samples.no_sha_world).
Proof.
  assert (H1 : env_truthy (environ Samples.no_sha_world !! "GITHUB_SHA") = false)
    by (vm_compute; reflexivity).
  assert (H2 : run repo Samples.no_sha_world
               = (Ok Demo.blog, Demo.opened Samples.no_sha_world))
    by (vm_compute; reflexivity).
  split; [exact H1 | split; [vm_compute; reflexivity | split; [exact H2 |]]].
  exact (proj2 (reads_require_trigger_sha _ _ _ "posts/a.md" H1 H2)).
Defined.

(** ** Syndicate keys *)

Section Keys.
Context {fm : Frontmatter}.

(** X6.  On a post and a silo name that is not empty, [syndicate_id_for]
    never raises: it answers what the header holds under the silo's key, and
    two names that [str.lower()] maps to the same string get the same answer.
    An empty silo name fails its assertion, and a missing post is reported
    before it. *)
Theorem syndicate_id_for_ignores_case (p : Post) (a b : string) :
  a <> "" ->
  b <> "" ->
  str_lower a = str_lower b ->
  syndicate_id_for (APost p) a
  = Ok (dict_get (syndicate_key_for a) (metadata p)) /\
  syndicate_id_for (APost p) b = syndicate_id_for (APost p) a /\
  syndicate_id_for (APost p) "" = Raise (AssertionError "missing silo") /\
  syndicate_id_for NoPost "" = Raise (AssertionError "missing post").
Proof.
  intros Ha Hb Hab.
  assert (Hid : forall s, s <> "" ->
            syndicate_id_for (APost p) s
            = Ok (dict_get (syndicate_key_for s) (metadata p))).
  { intros s Hs. unfold syndicate_id_for, rassert. cbn.
    by destruct (String.eqb_spec s ""). }
  split; [by apply Hid | split; [| by split]].
  rewrite !Hid by done. unfold syndicate_key_for. by rewrite Hab.
Qed.

End Keys.

Lemma syndicate_id_for_ignores_case_witness :
  "DEV" <> "" /\ "dev" <> "" /\
  @str_lower Demo.plain "DEV" = @str_lower Demo.plain "dev" /\
  @syndicate_id_for Demo.plain (APost Demo.post_marked) "dev"
  = @syndicate_id_for Demo.plain (APost Demo.post_marked) "DEV" /\
  @syndicate_id_for Demo.plain (APost Demo.post_marked) "DEV"
  = Ok (Some (VInt 7)).
Proof.
  assert (H1 : "DEV" <> "") by discriminate.
  assert (H2 : "dev" <> "") by discriminate.
  assert (H3 : @str_lower Demo.plain "DEV" = @str_lower Demo.plain "dev")
    by reflexivity.
  split; [exact H1 | split; [exact H2 | split; [exact H3 |]]].
  destruct (@syndicate_id_for_ignores_case Demo.plain Demo.post_marked
              "DEV" "dev" H1 H2 H3) as (Ha & Hb & _).
  split; [exact Hb | exact Ha].
Defined.

(** ** The loops of [mark_syndicated_posts] *)

Section Loops.
Context {fm : Frontmatter}.

Lemma rfor_each_total {A S} (xs : list A) (body : S -> A -> Result S) :
  (forall x, In x xs -> forall acc, exists acc', body acc x = Ok acc') ->
  forall acc, exists res, rfor_each xs body acc = Ok res.
Proof.
  induction xs as [|x xs IH]; intros Hok acc; cbn; [by eexists |].
  destruct (Hok x ltac:(by left) acc) as [acc' ->]. cbn.
  apply IH. intros y Hy. apply Hok. by right.
Qed.

Lemma rfor_each_raises {A S} (xs : list A) (body : S -> A -> Result S) (x : A) :
  In x xs ->
  (forall acc, exists e, body acc x = Raise e) ->
  forall acc, exists e, rfor_each xs body acc = Raise e.
Proof.
  induction xs as [|y xs IH]; intros Hin Hbad acc; [done |]. cbn.
  destruct Hin as [-> | Hin].
  - destruct (Hbad acc) as [e ->]. by eexists.
  - destruct (body acc y) as [acc'|e]; cbn; [by apply IH | by eexists].
Qed.

Lemma rfor_each_fixed {A S} (xs : list A) (body : S -> A -> Result S) (acc : S) :
  (forall x, In x xs -> body acc x = Ok acc) ->
  rfor_each xs body acc = Ok acc.
Proof.
  induction xs as [|x xs IH]; intros Hfix; cbn; [done |].
  rewrite (Hfix x) by (by left). cbn. apply IH.
  intros y Hy. apply Hfix. by right.
Qed.

Lemma dict_has_update_keep {V} (k : string) (e : dict V) :
  forall d, dict_has k d = true -> dict_has k (dict_update d e) = true.
Proof.
  unfold dict_update. induction e as [|[k1 v1] e IH]; intros d Hd; cbn; [done |].
  apply IH. rewrite dict_has_set, Hd. by destruct (String.eqb k1 k).
Qed.

Lemma syndicate_key_not_self (silo : string) : syndicate_key_for silo <> "self".
Proof.
  unfold syndicate_key_for. intros Hlen.
  apply (f_equal String.length) in Hlen.
  rewrite length_append in Hlen. cbn in Hlen. lia.
Qed.

(** Building the merged post fails exactly on a header that holds the key
    ['self']. *)
Lemma merged_post_ok (p : Post) (ids : dict Value) (s0 s1 : list string)
    (new_ids : dict Value) :
  new_syndicate_ids_for p ids s0 = Ok (new_ids, s1) ->
  dict_has "self" (metadata p) = false ->
  exists p', merged_post p new_ids = Ok p'.
Proof.
  intros Hnew Hself.
  destruct (new_syndicate_ids_sound _ _ _ _ _ Hnew) as [_ Hkeys].
  assert (Hno : dict_has "self" new_ids = false).
  { destruct (dict_has "self" new_ids) eqn:E; [| done].
    apply dict_has_In, Hkeys in E as (silo & _ & _ & E & _).
    by destruct (syndicate_key_not_self silo). }
  unfold merged_post, Post_of_kwargs.
  replace (dict_has "self" (dict_update (to_dict p) new_ids)) with false.
  - assert (H : dict_has "content" (dict_update (to_dict p) new_ids) = true).
    { apply dict_has_update_keep. unfold to_dict, dict_has.
      by rewrite dict_get_set_eq. }
    unfold dict_has in H.
    destruct (dict_get "content" _); [by eexists | done].
  - unfold dict_has. rewrite dict_get_update_other by done.
    unfold to_dict. rewrite dict_get_set_ne by done.
    by unfold dict_has in Hself.
Qed.

Lemma merged_post_self (p : Post) (new_ids : dict Value) :
  dict_has "self" (metadata p) = true ->
  exists e, merged_post p new_ids = Raise e.
Proof.
  intros Hself. unfold merged_post, Post_of_kwargs.
  rewrite dict_has_update_keep; [by eexists |].
  unfold to_dict. rewrite dict_has_set, Hself. apply orb_true_r.
Qed.

Lemma new_syndicate_ids_ok_iff (p : Post) (ids : dict Value) (s0 : list string) :
  (exists res, new_syndicate_ids_for p ids s0 = Ok res) <->
  (forall silo sid, In (silo, sid) ids -> silo <> "").
Proof.
  unfold new_syndicate_ids_for. split.
  - intros [res Hres] silo sid Hin ->.
    match type of Hres with
    | rfor_each ?xs ?body ?acc = _ =>
        assert (Hr : exists e, rfor_each xs body acc = Raise e)
    end.
    { apply (rfor_each_raises _ _ _ Hin). intros acc. by eexists. }
    destruct Hr as [e He]. congruence.
  - intros Hok. apply rfor_each_total. intros [silo sid] Hin acc. cbn [fst snd].
    unfold syndicate_id_for, rassert. cbn.
    destruct (String.eqb_spec silo "") as [->|_]; [by destruct (Hok _ _ Hin) |].
    cbn. destruct (negb _); by eexists.
Qed.

Lemma new_syndicate_ids_all_marked (p : Post) (ids : dict Value)
    (s0 : list string) :
  (forall silo sid, In (silo, sid) ids ->
     silo <> "" /\
     truthy_opt (dict_get (syndicate_key_for silo) (metadata p)) = true) ->
  new_syndicate_ids_for p ids s0 = Ok ([], s0).
Proof.
  intros Hall. unfold new_syndicate_ids_for. apply rfor_each_fixed.
  intros [silo sid] Hin. destruct (Hall silo sid Hin) as [Hne Ht].
  cbn [fst snd]. unfold syndicate_id_for, rassert. cbn.
  destruct (String.eqb_spec silo "") as [|_]; [done |]. cbn. by rewrite Ht.
Qed.

Lemma id_for_key_in (silo : string) (sid : Value) (ids : dict Value) :
  In (silo, sid) ids -> exists v, id_for_key (syndicate_key_for silo) ids = Some v.
Proof.
  induction ids as [|[silo' sid'] ids IH]; [done |]. cbn [id_for_key fst snd].
  intros [Heq | Hin].
  - injection Heq as -> ->. destruct (id_for_key _ ids); [by eexists |].
    rewrite String.eqb_refl. by eexists.
  - destruct (IH Hin) as [v ->]. by eexists.
Qed.

(** With a silo the post is not marked for, the inner loop collects
    something. *)
Lemma new_syndicate_ids_nonempty (p : Post) (ids : dict Value)
    (s0 s1 : list string) (new_ids : dict Value) (silo : string) (sid : Value) :
  new_syndicate_ids_for p ids s0 = Ok (new_ids, s1) ->
  In (silo, sid) ids ->
  truthy_opt (dict_get (syndicate_key_for silo) (metadata p)) = false ->
  new_ids <> [].
Proof.
  intros Hnew Hin Hun ->.
  pose proof (new_syndicate_ids_get _ _ _ _ _ (syndicate_key_for silo) Hnew)
    as Hget.
  rewrite Hun in Hget. destruct (id_for_key_in _ _ _ Hin) as [v Hv].
  rewrite Hv in Hget. discriminate Hget.
Qed.

Ltac never_raises Hres Hin :=
  match type of Hres with
  | rfor_each ?xs ?body ?start = _ =>
      let Hr := fresh "Hr" in
      assert (Hr : exists e, rfor_each xs body start = Raise e);
      [ apply (rfor_each_raises _ _ _ Hin); intros acc; cbn [fst snd]
      | destruct Hr as [? ?]; congruence ]
  end.

(** X7.  The loops of [mark_syndicated_posts] run to their end exactly when
    every path that came with IDs has a post, no silo name is empty, and no
    post that gets a new ID holds the key ['self'] in its header; otherwise
    they raise (a [KeyError], the assertion on the silo, or the [TypeError]
    of the constructor). *)
Theorem updated_posts_succeeds_iff (ids_by_path : dict (dict Value))
    (posts : dict Post) :
  (exists res, updated_posts ids_by_path posts = Ok res) <->
  (forall path ids, In (path, ids) ids_by_path ->
     exists p,
       dict_get path posts = Some p /\
       (forall silo sid, In (silo, sid) ids -> silo <> "") /\
       (dict_has "self" (metadata p) = true ->
        forall silo sid, In (silo, sid) ids ->
          truthy_opt (dict_get (syndicate_key_for silo) (metadata p)) = true)).
Proof.
  unfold updated_posts. split.
  - intros [res Hres] path ids Hin.
    destruct (dict_get path posts) as [p|] eqn:Hp.
    + exists p. split; [done |].
      assert (Hsilos : forall silo sid, In (silo, sid) ids -> silo <> "").
      { intros silo sid Hs ->. never_raises Hres Hin. unfold getitem. rewrite Hp. cbn [rbind].
        destruct (new_syndicate_ids_for p ids (snd acc)) as [r|e] eqn:Hnew;
          [| by eexists].
        assert (Hall : forall silo sid, In (silo, sid) ids -> silo <> "")
          by (apply (new_syndicate_ids_ok_iff p ids (snd acc)); by eexists).
        by destruct (Hall _ _ Hs). }
      split; [exact Hsilos |].
      intros Hself silo sid Hs.
      destruct (truthy_opt (dict_get (syndicate_key_for silo) (metadata p)))
        eqn:Hun; [done |].
      exfalso. never_raises Hres Hin. unfold getitem. rewrite Hp. cbn [rbind].
      destruct (proj2 (new_syndicate_ids_ok_iff p ids (snd acc)) Hsilos)
        as [[new_ids s'] Hnew].
      rewrite Hnew. cbn [rbind fst snd].
      pose proof (new_syndicate_ids_nonempty _ _ _ _ _ _ _ Hnew Hs Hun) as Hne.
      destruct new_ids as [|kv new_ids]; [done |]. cbn [is_empty].
      destruct (merged_post_self p (kv :: new_ids) Hself) as [e ->].
      by eexists.
    + exfalso. never_raises Hres Hin. unfold getitem. rewrite Hp. by eexists.
  - intros Hok. apply rfor_each_total. intros [path ids] Hin acc.
    destruct (Hok path ids Hin) as (p & Hp & Hsilos & Hself). cbn [fst snd].
    unfold getitem. rewrite Hp. cbn [rbind].
    destruct (proj2 (new_syndicate_ids_ok_iff p ids (snd acc)) Hsilos)
      as [[new_ids s'] Hnew].
    rewrite Hnew. cbn [rbind fst snd].
    destruct new_ids as [|kv new_ids]; cbn [is_empty]; [by eexists |].
    destruct (dict_has "self" (metadata p)) eqn:Hs.
    + exfalso.
      assert (Hmarked : forall silo sid, In (silo, sid) ids ->
                silo <> "" /\
                truthy_opt (dict_get (syndicate_key_for silo) (metadata p))
                = true).
      { intros silo sid Hi. split; [by apply (Hsilos silo sid) |].
        by apply (Hself eq_refl silo sid). }
      rewrite (new_syndicate_ids_all_marked p ids (snd acc) Hmarked) in Hnew.
      discriminate Hnew.
    + destruct (merged_post_ok _ _ _ _ _ Hnew Hs) as [p' ->]. by eexists.
Qed.

End Loops.

Section MoreMarking.
Context {fm : Frontmatter}.

(** X8.  Marking posts that are all marked already changes nothing: when every
    path has its post and every post holds a record for each silo it was
    given an ID for, [mark_syndicated_posts] logs that all is well, returns
    nothing and sends no request. *)
Theorem marking_marked_posts_is_a_no_op (ids_by_path : dict (dict Value))
    (posts : dict Post) (w : World) :
  ids_by_path <> [] ->
  posts <> [] ->
  (forall path ids, In (path, ids) ids_by_path ->
     exists p, dict_get path posts = Some p /\
       forall silo sid, In (silo, sid) ids ->
         silo <> "" /\
         truthy_opt (dict_get (syndicate_key_for silo) (metadata p)) = true) ->
  run (mark_syndicated_posts ids_by_path posts) w
  = (Ok None, with_stdout (stdout w ++ ["All good: already marked."]) w).
Proof.
  intros Hids Hposts Hall.
  assert (Hup : updated_posts ids_by_path posts = Ok ([], [])).
  { unfold updated_posts. apply rfor_each_fixed. intros [path ids] Hin.
    destruct (Hall path ids Hin) as (p & Hp & Hmarked). cbn [fst snd].
    unfold getitem. rewrite Hp. cbn [rbind].
    by rewrite (new_syndicate_ids_all_marked p ids [] Hmarked). }
  unfold mark_syndicated_posts.
  destruct ids_by_path; [done |]. destruct posts; [done |].
  unfold run, bind, assert_, lift, ret. cbn [is_empty negb].
  by rewrite Hup.
Qed.

Lemma updated_posts_missing_path (ids_by_path : dict (dict Value))
    (posts : dict Post) (path : string) (ids : dict Value) :
  In (path, ids) ids_by_path ->
  dict_has path posts = false ->
  exists e, updated_posts ids_by_path posts = Raise e.
Proof.
  intros Hin Hno. unfold updated_posts.
  apply (rfor_each_raises _ _ _ Hin). intros acc. cbn [fst snd].
  unfold getitem, dict_has in *.
  destruct (dict_get path posts); [done | by eexists].
Qed.

(** X9.  [mark_syndicated_posts] refuses bad input before it touches anything:
    without IDs, without posts, or with a path that has no post it raises and
    leaves the log, the network and the host as they were. *)
Theorem mark_syndicated_posts_rejects (ids_by_path : dict (dict Value))
    (posts : dict Post) (w : World) :
  (ids_by_path = [] ->
   run (mark_syndicated_posts ids_by_path posts) w
   = (Raise (AssertionError "missing syndicate IDs"), w)) /\
  (ids_by_path <> [] -> posts = [] ->
   run (mark_syndicated_posts ids_by_path posts) w
   = (Raise (AssertionError "missing fronted posts"), w)) /\
  (forall path ids, In (path, ids) ids_by_path ->
     dict_has path posts = false ->
     exists e, run (mark_syndicated_posts ids_by_path posts) w = (Raise e, w)).
Proof.
  unfold mark_syndicated_posts. repeat split.
  - by intros ->.
  - intros Hne ->. by destruct ids_by_path.
  - intros path ids Hin Hno.
    destruct (updated_posts_missing_path _ _ _ _ Hin Hno) as [e He].
    destruct ids_by_path; [done |].
    unfold run, bind, assert_, lift, ret, raise. cbn [is_empty negb].
    destruct posts; cbn [is_empty negb]; [by eexists |].
    rewrite He. by eexists.
Qed.

(** X10.  Whatever it is given, [mark_syndicated_posts] never returns the response
    of a reference update and never moves a reference: it returns nothing or
    raises, and all it may have sent is the repository lookup and blobs. *)
Theorem mark_syndicated_posts_never_commits (ids_by_path : dict (dict Value))
    (posts : dict Post) (w : World) :
  (forall j,
     fst (run (mark_syndicated_posts ids_by_path posts) w) <> Ok (Some j)) /\
  refs (host (snd (run (mark_syndicated_posts ids_by_path posts) w)))
  = refs (host w) /\
  exists sent,
    network (snd (run (mark_syndicated_posts ids_by_path posts) w))
    = network w ++ sent /\ forallb blob_traffic sent = true.
Proof.
  destruct (run (mark_syndicated_posts ids_by_path posts) w) as [res w']
    eqn:Hrun. cbn [fst snd].
  assert (Hstill : forall (r : Result (option string)),
            (forall j, r <> Ok (Some j)) ->
            (forall j, r <> Ok (Some j)) /\
            refs (host w) = refs (host w) /\
            exists sent, network w = network w ++ sent /\
              forallb blob_traffic sent = true).
  { intros r Hr. split; [exact Hr | split; [done |]].
    exists []. by rewrite app_nil_r. }
  revert Hrun. unfold mark_syndicated_posts.
  unfold run at 1, bind at 1, assert_ at 1.
  destruct ids_by_path as [|i0 ids0]; cbn [is_empty negb].
  { intros [= <- <-]. by apply Hstill. }
  unfold ret at 1, bind at 1, assert_ at 1.
  destruct posts as [|p0 posts0]; cbn [is_empty negb].
  { intros [= <- <-]. by apply Hstill. }
  unfold ret at 1, bind at 1, lift at 1.
  destruct (updated_posts _ _) as [[batch silos]|e].
  - cbn [fst snd]. destruct batch as [|b0 batch0].
    + intros [= <- <-]. split; [done | split; [done |]].
      exists []. by rewrite app_nil_r.
    + intros Hrun.
      destruct (commit_updated_posts_stops (b0 :: batch0) silos w w' res
                  ltac:(done) Hrun) as [[e ->] Hw].
      split; [done | split; [apply Hw | apply Hw]].
  - intros [= <- <-]. by apply Hstill.
Qed.

End MoreMarking.

Section Silos.
Context {fm : Frontmatter}.

Lemma set_add_In (x y : string) (s : list string) :
  In x (set_add y s) <-> x = y \/ In x s.
Proof.
  unfold set_add. destruct (existsb (String.eqb y) s) eqn:Hy.
  - split; [by right | intros [-> | H]; [| done]].
    apply existsb_exists in Hy as (z & Hz & Heq).
    apply String.eqb_eq in Heq. by subst z.
  - rewrite in_app_iff. cbn. split.
    + intros [H | [-> | []]]; auto.
    + intros [-> | H]; auto.
Qed.

Lemma set_add_NoDup (y : string) (s : list string) :
  List.NoDup s -> List.NoDup (set_add y s).
Proof.
  intros Hs. unfold set_add. destruct (existsb (String.eqb y) s) eqn:Hy; [done |].
  apply List.NoDup_app; [done | repeat constructor; by intros [] |].
  intros a Ha [Heq | []]. subst a.
  assert (existsb (String.eqb y) s = true); [| congruence].
  apply existsb_exists. exists y. split; [done | apply String.eqb_refl].
Qed.

Lemma set_add_nonempty (y : string) (s : list string) : set_add y s <> [].
Proof.
  unfold set_add. destruct (existsb (String.eqb y) s) eqn:Hy.
  - by destruct s.
  - by destruct s.
Qed.

Lemma dict_set_nonempty {V} (k : string) (v : V) (d : dict V) :
  dict_set k v d <> [].
Proof.
  destruct d as [|[k' v'] d]; cbn; [done |]. by destruct (String.eqb k k').
Qed.

(** What the inner loop does to the set of silos. *)
Lemma new_syndicate_ids_silos (p : Post) (ids : dict Value)
    (s0 s1 : list string) (new_ids : dict Value) :
  new_syndicate_ids_for p ids s0 = Ok (new_ids, s1) ->
  List.NoDup s0 ->
  List.NoDup s1 /\
  (new_ids = [] -> s1 = s0) /\
  (new_ids <> [] -> s1 <> []) /\
  (forall x, In x s1 -> In x s0 \/ exists sid, In (x, sid) ids).
Proof.
  unfold new_syndicate_ids_for. intros Hrun Hnd.
  pose (K := fun acc : dict Value * list string =>
               List.NoDup (snd acc) /\
               (fst acc = [] -> snd acc = s0) /\
               (fst acc <> [] -> snd acc <> []) /\
               (forall x, In x (snd acc) ->
                  In x s0 \/ exists sid, In (x, sid) ids)).
  change (K (new_ids, s1)).
  eapply (rfor_each_inv K); [| | exact Hrun].
  - intros [d s] [silo sid] acc' (Hs & Hsame & Hfull & Hfrom) Hin.
    cbn [fst snd] in *.
    destruct (syndicate_id_for (APost p) silo) as [x|e]; cbn [rbind]; [| done].
    destruct (negb (truthy_opt x)); intros [= <-]; [| done].
    split; [by apply set_add_NoDup |]. cbn [fst snd].
    split; [intros H; by destruct (dict_set_nonempty _ _ _ H) |].
    split; [intros _; apply set_add_nonempty |].
    intros y Hy. apply set_add_In in Hy as [-> | Hy]; [| by apply Hfrom].
    right. by exists sid.
  - repeat split; cbn; auto.
Qed.

(** X11.  The silos handed to the commit are a set: no name twice, every name that
    of a silo some post came with an ID for, and at least one name exactly
    when there is at least one post to commit. *)
Theorem silos_included_match_the_batch (ids_by_path : dict (dict Value))
    (posts batch : dict Post) (silos : list string) :
  updated_posts ids_by_path posts = Ok (batch, silos) ->
  List.NoDup silos /\
  (batch = [] <-> silos = []) /\
  (forall silo, In silo silos ->
     exists path ids sid, In (path, ids) ids_by_path /\ In (silo, sid) ids).
Proof.
  unfold updated_posts. intros Hrun.
  pose (I := fun acc : dict Post * list string =>
               List.NoDup (snd acc) /\
               (fst acc = [] <-> snd acc = []) /\
               (forall silo, In silo (snd acc) ->
                  exists path ids sid,
                    In (path, ids) ids_by_path /\ In (silo, sid) ids)).
  change (I (batch, silos)).
  eapply (rfor_each_inv I); [| | exact Hrun].
  - intros [b s] [path ids] acc' (Hs & Hiff & Hfrom) Hin. cbn [fst snd] in *.
    unfold getitem.
    destruct (dict_get path posts) as [p|]; cbn [rbind]; [| done].
    destruct (new_syndicate_ids_for p ids s) as [[new_ids s']|e] eqn:Hnew;
      cbn [rbind fst snd]; [| done].
    destruct (new_syndicate_ids_silos _ _ _ _ _ Hnew Hs)
      as (Hs' & Hsame & Hfull & Hfrom').
    assert (Hfrom'' : forall silo, In silo s' ->
              exists path ids sid,
                In (path, ids) ids_by_path /\ In (silo, sid) ids).
    { intros silo Hsilo. destruct (Hfrom' silo Hsilo) as [H | [sid H]];
        [by apply Hfrom | by exists path, ids, sid]. }
    destruct new_ids as [|kv new_ids]; cbn [is_empty].
    + intros [= <-]. cbn [fst snd]. rewrite (Hsame eq_refl) in *. done.
    + destruct (merged_post p (kv :: new_ids)) as [up|e]; cbn [rbind]; [| done].
      intros [= <-]. cbn [fst snd]. split; [done | split; [| done]].
      split; intros H.
      * by destruct (dict_set_nonempty _ _ _ H).
      * by destruct (Hfull ltac:(done)).
  - repeat split; cbn; auto; try constructor. by intros silo [].
Qed.

(** X12.  What goes to the commit are the given posts with their bodies: every
    post of the batch sits under a path that came with IDs, has the body of
    the post given for that path, and, where that post's header has no key
    ['handler'], carries no handler of its own any more. *)
Theorem batch_posts_keep_their_body (ids_by_path : dict (dict Value))
    (posts batch : dict Post) (silos : list string) (path : string)
    (p' : Post) :
  updated_posts ids_by_path posts = Ok (batch, silos) ->
  dict_get path batch = Some p' ->
  exists p ids,
    dict_get path posts = Some p /\ In (path, ids) ids_by_path /\
    content p' = content p /\
    (dict_get "handler" (metadata p) = None -> handler p' = None).
Proof.
  intros Hrun Hp'.
  destruct (updated_posts_origin _ _ _ _ Hrun _ _ Hp')
    as (p & ids & s0 & new_ids & s1 & Hp & Hin & Hnew & _ & Hm).
  exists p, ids. split; [done | split; [done |]].
  destruct (new_syndicate_ids_sound _ _ _ _ _ Hnew) as [_ Hkeys].
  assert (Hres : forall k, k = "content" \/ k = "handler" ->
            dict_has k new_ids = false).
  { intros k Hk. destruct (dict_has k new_ids) eqn:E; [| done].
    apply dict_has_In, Hkeys in E as (silo & _ & _ & -> & _).
    destruct (syndicate_key_not_reserved silo). by destruct Hk. }
  revert Hm. unfold merged_post, Post_of_kwargs.
  destruct (dict_has "self" _); [done |].
  rewrite dict_get_update_other by (apply Hres; by left).
  unfold to_dict at 1. rewrite dict_get_set_eq. intros [= <-].
  cbn [content handler py_str]. split; [done |].
  intros Hh. rewrite dict_get_update_other by (apply Hres; by right).
  unfold to_dict. by rewrite dict_get_set_ne.
Qed.

End Silos.

(** ** More on the Commit Protocol *)

Section MoreCommit.
Context {fm : Frontmatter}.

(** X13.  With posts to commit, [commit_updated_posts] checks its environment
    before it sends anything: the token, then the repository name, then the
    branch reference; the first one missing fails its assertion and the world
    is left as it was. *)
Theorem commit_updated_posts_checks_environment (batch : dict Post)
    (silos : list string) (w : World) :
  batch <> [] ->
  (env_truthy (environ w !! "GITHUB_TOKEN") = false ->
   run (commit_updated_posts batch silos) w
   = (Raise (AssertionError "missing GITHUB_TOKEN"), w)) /\
  (env_truthy (environ w !! "GITHUB_TOKEN") = true ->
   env_truthy (environ w !! "GITHUB_REPOSITORY") = false ->
   run (commit_updated_posts batch silos) w
   = (Raise (AssertionError "missing GITHUB_REPOSITORY"), w)) /\
  (env_truthy (environ w !! "GITHUB_TOKEN") = true ->
   env_truthy (environ w !! "GITHUB_REPOSITORY") = true ->
   env_truthy (environ w !! "GITHUB_REF") = false ->
   run (commit_updated_posts batch silos) w
   = (Raise (AssertionError "missing GITHUB_REF"), w)).
Proof.
  intros Hne. unfold commit_updated_posts. destruct batch; [done |].
  cbn [is_empty]. unfold run, bind, getenv, assert_, ret, raise.
  repeat split.
  - by intros ->.
  - by intros -> ->.
  - by intros -> -> ->.
Qed.

Lemma create_blob_accepted (text encoding sha : string) (w : World) :
  script (host w) (length (network w)) = Accept sha ->
  run (create_blob text encoding) w
  = (Ok sha,
     with_host (with_blobs (blobs (host w) ++ [(sha, text)]) (host w))
       (with_network (network w ++ [PostBlob text encoding]) w)).
Proof.
  intros Hs. unfold run, create_blob, bind, send, ask, update_host, ret.
  cbn. by rewrite Hs.
Qed.

Lemma post_blobs_loop (shas : nat -> string) (r : Repository)
    (batch : dict Post) :
  forall (acc : dict string) (w : World),
  repo_cache w = Some r ->
  (forall n, script (host w) n = Accept (shas n)) ->
  exists w',
    run (for_each batch
           (fun acc item =>
              let* r := repo in
              let* blob_sha := create_blob (dumps (snd item)) "utf-8" in
              ret (dict_set (fst item) blob_sha acc)) acc) w
    = (Ok (dict_update acc
             (imap (fun k item => (fst item, shas (length (network w) + k)%nat))
                batch)), w') /\
    network w'
    = network w ++ map (fun item => PostBlob (dumps (snd item)) "utf-8") batch /\
    blobs (host w')
    = blobs (host w)
      ++ imap (fun k item => (shas (length (network w) + k)%nat,
                              dumps (snd item))) batch /\
    refs (host w') = refs (host w) /\ stdout w' = stdout w.
Proof.
  induction batch as [|[path post] batch IH]; intros acc w Hc Hs.
  - exists w. cbn. by rewrite !app_nil_r.
  - pose (sha0 := shas (length (network w))).
    pose (w1 := with_host
                  (with_blobs (blobs (host w) ++ [(sha0, dumps post)]) (host w))
                  (with_network
                     (network w ++ [PostBlob (dumps post) "utf-8"]) w)).
    assert (Hstep : forall body,
              body = (fun (acc : dict string) (item : string * Post) =>
                        let* r := repo in
                        let* blob_sha := create_blob (dumps (snd item)) "utf-8" in
                        ret (dict_set (fst item) blob_sha acc)) ->
              run (for_each ((path, post) :: batch) body acc) w
              = run (for_each batch body (dict_set path sha0 acc)) w1).
    { intros body ->. cbn [for_each].
      rewrite run_bind, run_bind, (repo_cached _ _ Hc), run_bind.
      cbn [snd]. by rewrite (create_blob_accepted _ _ sha0) by apply Hs. }
    destruct (IH (dict_set path sha0 acc) w1)
      as (w' & Hrun & Hn & Hb & Hr & Ho); [done | apply Hs |].
    assert (Hlen : forall k, (length (network w1) + k
                              = length (network w) + S k)%nat).
    { intros k. subst w1. cbn. rewrite length_app. cbn. lia. }
    rewrite (imap_ext _
               ((fun k item => (fst item, shas (length (network w) + k)%nat))
                ∘ S)) in Hrun
      by (intros k x _; cbn [compose]; by rewrite Hlen).
    rewrite (imap_ext _
               ((fun k item => (shas (length (network w) + k)%nat,
                                dumps (snd item))) ∘ S)) in Hb
      by (intros k x _; cbn [compose]; by rewrite Hlen).
    exists w'. split; [| split; [| split; [| split]]].
    + rewrite (Hstep _ eq_refl), Hrun, imap_cons. unfold dict_update.
      cbn [fold_left fst snd]. by rewrite Nat.add_0_r.
    + rewrite Hn. subst w1. cbn. by rewrite <- app_assoc.
    + rewrite Hb, imap_cons. subst w1. cbn [host with_host blobs with_blobs snd].
      by rewrite <- app_assoc, Nat.add_0_r.
    + by rewrite Hr.
    + by rewrite Ho.
Qed.

(** X14.  On a host that accepts every request, with the repository already
    looked up, the first step posts exactly one blob per post, in the order of
    the batch, each holding the serialized post; the blobs are in the object
    database under the identifiers the host gave, which is what the step
    returns per path; no reference moves and nothing is logged. *)
Theorem post_blobs_posts_one_blob_per_post (shas : nat -> string)
    (r : Repository) (batch : dict Post) (w : World) :
  repo_cache w = Some r ->
  (forall n, script (host w) n = Accept (shas n)) ->
  fst (run (post_blobs batch) w)
  = Ok (dict_update []
          (imap (fun k item => (fst item, shas (length (network w) + k)%nat))
             batch)) /\
  network (snd (run (post_blobs batch) w))
  = network w ++ map (fun item => PostBlob (dumps (snd item)) "utf-8") batch /\
  blobs (host (snd (run (post_blobs batch) w)))
  = blobs (host w)
    ++ imap (fun k item => (shas (length (network w) + k)%nat,
                            dumps (snd item))) batch /\
  refs (host (snd (run (post_blobs batch) w))) = refs (host w) /\
  stdout (snd (run (post_blobs batch) w)) = stdout w.
Proof.
  intros Hc Hs. unfold post_blobs.
  destruct (post_blobs_loop shas r batch [] w Hc Hs) as (w' & -> & H).
  split; [done | exact H].
Qed.

(** X15.  The code after the reference update (lines 255 to 262), given the
    response: on status 200 it returns the response body and the steps that
    follow find the Commit Cursor at the new commit; on any other status it
    returns nothing, logs one error line, and the cursor stays where it
    was. *)
Theorem conclude_advances_cursor_on_200 (w : World) (response : Response)
    (new_commit c : string) :
  commit_cursor (next_step_environ w) = Some c ->
  (status_code response = 200 ->
   fst (run (conclude response new_commit) w) = Ok (Some (json response)) /\
   commit_cursor
     (next_step_environ (snd (run (conclude response new_commit) w)))
   = Some new_commit) /\
  (status_code response <> 200 ->
   fst (run (conclude response new_commit) w) = Ok None /\
   stdout (snd (run (conclude response new_commit) w))
   = stdout w
     ++ ["::error::Failed to mark syndicated posts: " +:+ json response] /\
   commit_cursor
     (next_step_environ (snd (run (conclude response new_commit) w)))
   = Some c).
Proof.
  intros Hcur. unfold conclude. split.
  - intros ->. cbn [Z.eqb Pos.eqb].
    assert (Hrun :
      run (action_setenv "SYNDICATE_SHA" new_commit >>
           action_log "Syndicate posts marked." >>
           ret (Some (json response))) w
      = (Ok (Some (json response)),
         with_stdout
           (stdout w ++ ["::set-env name=SYNDICATE_SHA::" +:+ new_commit;
                         "Syndicate posts marked."]) w)).
    { unfold run, bind, action_setenv, action_log, print, ret. cbn.
      by rewrite <- app_assoc. }
    rewrite Hrun. split; [done |]. cbn [snd].
    rewrite next_step_environ_app.
    change (fold_left _ _ (next_step_environ w))
      with (<["SYNDICATE_SHA" := new_commit]> (next_step_environ w)).
    revert Hcur. unfold commit_cursor.
    rewrite lookup_insert_ne by done. rewrite lookup_insert_eq.
    destruct (next_step_environ w !! "GITHUB_SHA") as [sha|]; [| done].
    by destruct (String.eqb sha "").
  - intros Hst. destruct (Z.eqb_spec (status_code response) 200) as [|_];
      [done |].
    assert (Hrun :
      run (action_error ("Failed to mark syndicated posts: " +:+ json response)
           >> ret (@None string)) w
      = (Ok None,
         with_stdout
           (stdout w
            ++ ["::error::Failed to mark syndicated posts: " +:+ json response])
           w)).
    { reflexivity. }
    rewrite Hrun. split; [done | split; [done |]]. cbn [snd].
    by rewrite next_step_environ_app.
Qed.

End MoreCommit.

(** ** Log groups and job output *)

Section Glue.
Context {J : Type} {js : Json J}.

(** X16.  A grouped function returns what the function returns and its log lines
    come between the group markers; when the function raises, the exception
    passes through and the group is never closed. *)
Theorem action_log_group_closes_only_on_return {A} (title : string)
    (func : M A) (w w1 : World) (res : Result A) :
  run func (with_stdout (stdout w ++ ["::group::" +:+ title]) w) = (res, w1) ->
  run (action_log_group title func) w
  = match res with
    | Ok a => (Ok a, with_stdout (stdout w1 ++ ["::endgroup::"]) w1)
    | Raise e => (Raise e, w1)
    end.
Proof.
  intros Hrun. unfold action_log_group. rewrite run_bind.
  unfold print at 1, run at 1. rewrite run_bind, Hrun.
  by destruct res.
Qed.

(** X17.  Adding job output prints one [::set-env] line holding the old results
    updated with the new ones.  Results the new ones do not name are kept.
    The running process still reads the old results, since its own
    environment is untouched; the following step reads what was printed. *)
Theorem job_output_carries_over (results old : dict J) (w : World) :
  fst (run job_getoutput w) = Ok old ->
  run (job_addoutput results) w
  = (Ok tt,
     with_stdout
       (stdout w
        ++ ["::set-env name=SYNDICATE_POSTS::"
            +:+ json_dumps (dict_update old results)]) w) /\
  (forall k, dict_has k results = false ->
     dict_get k (dict_update old results) = dict_get k old) /\
  fst (run job_getoutput (snd (run (job_addoutput results) w))) = Ok old /\
  fst (run job_getoutput (next_step (snd (run (job_addoutput results) w))))
  = json_loads (json_dumps (dict_update old results)).
Proof.
  intros Hold.
  assert (Hget : run job_getoutput w = (Ok old, w)).
  { revert Hold. unfold run, job_getoutput, bind, getenv_or, lift. cbn.
    by intros ->. }
  assert (Hadd : run (job_addoutput results) w
                 = (Ok tt,
                    with_stdout
                      (stdout w
                       ++ ["::set-env name=SYNDICATE_POSTS::"
                           +:+ json_dumps (dict_update old results)]) w)).
  { unfold job_addoutput. by rewrite run_bind, Hget. }
  split; [exact Hadd | split; [intros k Hk; by apply dict_get_update_other |]].
  rewrite Hadd. cbn [snd]. split.
  - revert Hold. by unfold run, job_getoutput, bind, getenv_or, lift.
  - unfold run, job_getoutput, bind, getenv_or, lift, next_step.
    cbn [environ fst]. rewrite next_step_environ_app.
    change (fold_left _ _ (next_step_environ w))
      with (<["SYNDICATE_POSTS" := json_dumps (dict_update old results)]>
              (next_step_environ w)).
    rewrite lookup_insert_eq. cbn [default].
    by destruct (json_loads _).
Qed.

End Glue.

(** ** More on the silo client *)

Section MoreSilo.

Lemma search_pages_found (listing : nat -> list Article) (id : Z)
    (a : Article) (n : nat) :
  forall (start fuel : nat),
  (forall p, (start <= p < start + n)%nat ->
     listing p <> [] /\ forall b, In b (listing p) -> article_id b <> id) ->
  find (fun b => article_id b =? id) (listing (start + n)%nat) = Some a ->
  (n < fuel)%nat ->
  search_pages fuel listing start id = Some (Some a, seq start (S n)).
Proof.
  induction n as [|n IH]; intros start fuel Hfull Hfind Hfuel.
  - destruct fuel as [|fuel]; [lia |]. cbn [search_pages seq].
    replace (start + 0)%nat with start in Hfind by lia.
    destruct (listing start) as [|b posts] eqn:Hpage; [done |].
    by rewrite Hfind.
  - destruct fuel as [|fuel]; [lia |]. cbn [search_pages].
    destruct (Hfull start ltac:(lia)) as [Hne Hids].
    destruct (listing start) as [|b posts] eqn:Hpage; [done |].
    destruct (find _ (b :: posts)) as [b'|] eqn:Hf.
    + apply find_some in Hf as [Hin Heq].
      apply Z.eqb_eq in Heq. by destruct (Hids b' Hin).
    + rewrite (IH (S start) fuel).
      * reflexivity.
      * intros p Hp. apply Hfull. lia.
      * by replace (S start + n)%nat with (start + S n)%nat by lia.
      * lia.
Qed.

(** X18.  When the first page that holds a post with the requested id comes after
    pages that are not empty, [fetch] asks for the pages in order up to that
    one and returns the first such post of it. *)
Theorem fetch_finds_post_on_its_page (api_key : string) (id : Z)
    (listing : nat -> list Article) (a : Article) (n fuel : nat) :
  api_key <> "" ->
  (forall p, (1 <= p <= n)%nat ->
     listing p <> [] /\ forall b, In b (listing p) -> article_id b <> id) ->
  find (fun b => article_id b =? id) (listing (S n)) = Some a ->
  (n < fuel)%nat ->
  fetch (Some api_key) (Some id) listing fuel
  = Some (Ok (OnePost a), seq 1 (S n)) /\
  article_id a = id.
Proof.
  intros Hkey Hfull Hfind Hfuel. split.
  - unfold fetch. replace (env_truthy (Some api_key)) with true
      by (cbn; by destruct (String.eqb_spec api_key "")).
    cbn [negb]. rewrite (search_pages_found listing id a n 1 fuel); auto.
    intros p Hp. apply Hfull. lia.
  - apply find_some in Hfind as [_ Heq]. by apply Z.eqb_eq in Heq.
Qed.

End MoreSilo.

(** ** The further properties at work on the samples *)

Lemma get_posts_matches_by_prefix_witness :
  "added" <> "deleted" /\
  commit_cursor (environ Samples.archive_world) = Some "c0" /\
  fst (run (get_posts "posts") Samples.archive_world)
  = Ok [ {| decoded := "posts-archive/x.md@c0" |} ].
Proof.
  assert (H1 : "added" <> "deleted") by discriminate.
  assert (H2 : run get_trigger_payload Samples.archive_world
               = (Ok [ {| filename := "posts" +:+ "-archive/x.md";
                          status := "added" |} ],
                  with_network
                    (network (Demo.opened Samples.archive_world)
                     ++ [GetCommit "c0"])
                    (Demo.opened Samples.archive_world)))
    by (vm_compute; reflexivity).
  assert (H3 : commit_cursor (environ Samples.archive_world) = Some "c0")
    by (vm_compute; reflexivity).
  split; [exact H1 | split; [exact H3 |]].
  exact (proj1 (get_posts_matches_by_prefix Samples.archive_world _
                  "posts" "-archive/x.md" "added" "c0"
                  {| decoded := "posts-archive/x.md@c0" |}
                  H1 H2 H3 eq_refl)).
Defined.

Lemma marking_marked_posts_is_a_no_op_witness :
  [("posts/a.md", Demo.dev_ids)] <> [] /\
  [("posts/a.md", Demo.post_marked)] <> [] /\
  run (@mark_syndicated_posts Demo.plain
         [("posts/a.md", Demo.dev_ids)] [("posts/a.md", Demo.post_marked)])
    Demo.world
  = (Ok None,
     with_stdout (stdout Demo.world ++ ["All good: already marked."])
       Demo.world).
Proof.
  assert (H1 : [("posts/a.md", Demo.dev_ids)] <> []) by discriminate.
  assert (H2 : [("posts/a.md", Demo.post_marked)] <> []) by discriminate.
  split; [exact H1 | split; [exact H2 |]].
  apply (@marking_marked_posts_is_a_no_op Demo.plain _ _ Demo.world H1 H2).
  intros path ids [Hin | []]. injection Hin as <- <-.
  exists Demo.post_marked. split; [reflexivity |].
  intros silo sid [Hs | []]. injection Hs as <- <-.
  split; [discriminate | reflexivity].
Defined.

Lemma mark_syndicated_posts_rejects_witness :
  In ("posts/c.md", Demo.dev_ids) [("posts/c.md", Demo.dev_ids)] /\
  dict_has "posts/c.md" [("posts/a.md", Demo.post_a)] = false /\
  exists e,
    run (@mark_syndicated_posts Demo.plain
           [("posts/c.md", Demo.dev_ids)] [("posts/a.md", Demo.post_a)])
      Demo.world
    = (Raise e, Demo.world).
Proof.
  assert (H1 : In ("posts/c.md", Demo.dev_ids) [("posts/c.md", Demo.dev_ids)])
    by (by left).
  assert (H2 : dict_has "posts/c.md" [("posts/a.md", Demo.post_a)] = false)
    by reflexivity.
  split; [exact H1 | split; [exact H2 |]].
  exact (proj2 (proj2 (@mark_syndicated_posts_rejects Demo.plain
                         [("posts/c.md", Demo.dev_ids)]
                         [("posts/a.md", Demo.post_a)] Demo.world))
           "posts/c.md" Demo.dev_ids H1 H2).
Defined.

Lemma silos_included_match_the_batch_witness :
  @updated_posts Demo.plain Demo.ids_by_path Demo.posts_by_path
  = Ok ([("posts/c.md", Demo.post_c_marked)], ["DEV"]) /\
  List.NoDup ["DEV"] /\
  ([("posts/c.md", Demo.post_c_marked)] = [] <-> ["DEV"] = []).
Proof.
  assert (H1 : @updated_posts Demo.plain Demo.ids_by_path Demo.posts_by_path
               = Ok ([("posts/c.md", Demo.post_c_marked)], ["DEV"]))
    by reflexivity.
  split; [exact H1 |].
  destruct (@silos_included_match_the_batch Demo.plain _ _ _ _ H1)
    as (Hnd & Hiff & _).
  split; [exact Hnd | exact Hiff].
Defined.

Lemma batch_posts_keep_their_body_witness :
  @updated_posts Demo.plain Demo.ids_by_path Demo.posts_by_path
  = Ok ([("posts/c.md", Demo.post_c_marked)], ["DEV"]) /\
  dict_get "posts/c.md" [("posts/c.md", Demo.post_c_marked)]
  = Some Demo.post_c_marked /\
  exists p ids,
    dict_get "posts/c.md" Demo.posts_by_path = Some p /\
    In ("posts/c.md", ids) Demo.ids_by_path /\
    content Demo.post_c_marked = content p /\
    (dict_get "handler" (metadata p) = None ->
     handler Demo.post_c_marked = None).
Proof.
  assert (H1 : @updated_posts Demo.plain Demo.ids_by_path Demo.posts_by_path
               = Ok ([("posts/c.md", Demo.post_c_marked)], ["DEV"]))
    by reflexivity.
  assert (H2 : dict_get "posts/c.md" [("posts/c.md", Demo.post_c_marked)]
               = Some Demo.post_c_marked) by reflexivity.
  split; [exact H1 | split; [exact H2 |]].
  exact (@batch_posts_keep_their_body Demo.plain _ _ _ _ _ _ H1 H2).
Defined.

Lemma commit_updated_posts_checks_environment_witness :
  Demo.batch <> [] /\
  env_truthy (environ Samples.anonymous_world !! "GITHUB_TOKEN") = false /\
  run (@commit_updated_posts Demo.plain Demo.batch ["DEV"])
    Samples.anonymous_world
  = (Raise (AssertionError "missing GITHUB_TOKEN"), Samples.anonymous_world).
Proof.
  assert (H1 : Demo.batch <> []) by discriminate.
  assert (H2 : env_truthy (environ Samples.anonymous_world !! "GITHUB_TOKEN")
               = false) by (vm_compute; reflexivity).
  split; [exact H1 | split; [exact H2 |]].
  exact (proj1 (@commit_updated_posts_checks_environment Demo.plain
                  Demo.batch ["DEV"] Samples.anonymous_world H1) H2).
Defined.

Lemma post_blobs_posts_one_blob_per_post_witness :
  repo_cache (Demo.opened Demo.world) = Some Demo.blog /\
  (forall n, script (host (Demo.opened Demo.world)) n
             = Accept ("sha-" +:+ pretty n)) /\
  fst (run (@post_blobs Demo.plain Demo.batch) (Demo.opened Demo.world))
  = Ok [("posts/a.md", "sha-1")] /\
  blobs (host (snd (run (@post_blobs Demo.plain Demo.batch)
                      (Demo.opened Demo.world))))
  = [("sha-1", @dumps Demo.plain Demo.post_a)].
Proof.
  assert (H1 : repo_cache (Demo.opened Demo.world) = Some Demo.blog)
    by reflexivity.
  assert (H2 : forall n, script (host (Demo.opened Demo.world)) n
                         = Accept ("sha-" +:+ pretty n))
    by (intros n; reflexivity).
  split; [exact H1 | split; [exact H2 |]].
  destruct (@post_blobs_posts_one_blob_per_post Demo.plain
              (fun n => "sha-" +:+ pretty n) Demo.blog Demo.batch
              (Demo.opened Demo.world) H1 H2) as (Hres & _ & Hblobs & _).
  split; [exact Hres | exact Hblobs].
Defined.

Lemma conclude_advances_cursor_on_200_witness :
  commit_cursor (next_step_environ Demo.world) = Some "c0" /\
  status_code {| status_code := 200; json := "{}" |} = 200 /\
  commit_cursor
    (next_step_environ
       (snd (run (conclude {| status_code := 200; json := "{}" |} "c9")
               Demo.world)))
  = Some "c9".
Proof.
  assert (H1 : commit_cursor (next_step_environ Demo.world) = Some "c0")
    by (vm_compute; reflexivity).
  split; [exact H1 | split; [reflexivity |]].
  exact (proj2 (proj1 (conclude_advances_cursor_on_200 Demo.world
                         {| status_code := 200; json := "{}" |} "c9" "c0" H1)
                  eq_refl)).
Defined.

Lemma action_log_group_closes_only_on_return_witness :
  run Samples.failing_step
    (with_stdout (stdout Demo.world ++ ["::group::" +:+ "Marking"]) Demo.world)
  = (Raise (KeyError "posts/a.md"),
     with_stdout ["::group::Marking"; "working"] Demo.world) /\
  run (action_log_group "Marking" Samples.failing_step) Demo.world
  = (Raise (KeyError "posts/a.md"),
     with_stdout ["::group::Marking"; "working"] Demo.world).
Proof.
  assert (H1 : run Samples.failing_step
                 (with_stdout (stdout Demo.world ++ ["::group::" +:+ "Marking"])
                    Demo.world)
               = (Raise (KeyError "posts/a.md"),
                  with_stdout ["::group::Marking"; "working"] Demo.world))
    by reflexivity.
  split; [exact H1 |].
  exact (action_log_group_closes_only_on_return "Marking"
           Samples.failing_step Demo.world _ _ H1).
Defined.

Lemma job_output_carries_over_witness :
  fst (run (@job_getoutput _ Samples.flat_json) Samples.resumed_world)
  = Ok [("posts/a.md", "7")] /\
  fst (run (@job_getoutput _ Samples.flat_json)
         (snd (run (@job_addoutput _ Samples.flat_json [("posts/c.md", "9")])
                 Samples.resumed_world)))
  = Ok [("posts/a.md", "7")] /\
  fst (run (@job_getoutput _ Samples.flat_json)
         (next_step
            (snd (run (@job_addoutput _ Samples.flat_json [("posts/c.md", "9")])
                    Samples.resumed_world))))
  = Ok [("posts/a.md", "7"); ("posts/c.md", "9")].
Proof.
  assert (H1 : fst (run (@job_getoutput _ Samples.flat_json)
                      Samples.resumed_world)
               = Ok [("posts/a.md", "7")]) by (vm_compute; reflexivity).
  split; [exact H1 |].
  destruct (@job_output_carries_over _ Samples.flat_json
              [("posts/c.md", "9")] _ Samples.resumed_world H1)
    as (_ & _ & Hsame & Hnext).
  split; [exact Hsame | exact Hnext].
Defined.

Lemma fetch_finds_post_on_its_page_witness :
  "fake_api_key" <> "" /\
  fetch (Some "fake_api_key") (Some 13) Samples.two_pages 2
  = Some (Ok (OnePost {| article_id := 13; article_title := "z" |}),
          [1; 2]%nat).
Proof.
  split; [discriminate |].
  apply (fetch_finds_post_on_its_page "fake_api_key" 13 Samples.two_pages
           {| article_id := 13; article_title := "z" |} 1 2).
  - discriminate.
  - intros p Hp. assert (p = 1%nat) as -> by lia. split; [discriminate |].
    intros b [<- | []]. discriminate.
  - reflexivity.
  - lia.
Defined.

Lemma updated_posts_succeeds_iff_witness :
  @updated_posts Demo.plain Demo.ids_by_path Demo.posts_by_path
  = Ok ([("posts/c.md", Demo.post_c_marked)], ["DEV"]) /\
  (forall path ids, In (path, ids) Demo.ids_by_path ->
     exists p,
       dict_get path Demo.posts_by_path = Some p /\
       (forall silo sid, In (silo, sid) ids -> silo <> "") /\
       (dict_has "self" (metadata p) = true ->
        forall silo sid, In (silo, sid) ids ->
          truthy_opt (dict_get (@syndicate_key_for Demo.plain silo) (metadata p))
          = true)).
Proof.
  assert (H1 : @updated_posts Demo.plain Demo.ids_by_path Demo.posts_by_path
               = Ok ([("posts/c.md", Demo.post_c_marked)], ["DEV"]))
    by reflexivity.
  split; [exact H1 |].
  exact (proj1 (@updated_posts_succeeds_iff Demo.plain Demo.ids_by_path
                  Demo.posts_by_path) (ex_intro _ _ H1)).
Defined.
